(** * sap_automator: connection/session acquisition and the dialog drain loop

    A shallow embedding of [src/sap_automator.py] (class [SAPAutomator]).

    The Python methods talk to an external SAP GUI client through COM objects.
    Here every external call is an element of the type [call], answered by a
    deterministic stub (a state machine over an arbitrary world type [W]).
    Methods become computations in a state-and-exception monad: Python state
    survives a raised exception, so the state is threaded through both
    outcomes.  The two unbounded loops ([while time.time() - start_time <
    timeout_seconds] and [while True]) take fuel; [None] means that the fuel
    did not suffice.

    Modelling conventions:
    - handles ([CDispatch] objects) are opaque identifiers; [None] is Python's
      [None], the only falsy handle;
    - only subclasses of [Exception] are modelled (no [KeyboardInterrupt]);
      [str erro] is the text Python's [str(erro)] yields;
    - time is logical and counted in seconds: [time.sleep d] advances the
      clock by [d], every other statement is instantaneous;
    - strings are byte strings (UTF-8); [lower] changes the ASCII letters only,
      which is all the substring tests of the source can observe. *)

From Stdlib Require Import String Ascii ZArith List Lia Bool DecimalString.
Import ListNotations.
Open Scope string_scope.
Open Scope Z_scope.

(** ** Python strings *)

Module PyStr.

Definition lower_ascii (c : ascii) : ascii :=
  let n := nat_of_ascii c in
  if ((65 <=? n) && (n <=? 90))%nat then ascii_of_nat (n + 32) else c.

(** [s.lower()] *)
Fixpoint lower (s : string) : string :=
  match s with
  | EmptyString => EmptyString
  | String c s' => String (lower_ascii c) (lower s')
  end.

(** [needle in hay] *)
Fixpoint contains (needle hay : string) : bool :=
  match hay with
  | EmptyString => String.prefix needle EmptyString
  | String _ hay' => String.prefix needle hay || contains needle hay'
  end.

(** [str(n)] / the [{n}] of an f-string, for an [int] *)
Definition str_of_int (n : Z) : string := NilZero.string_of_int (Z.to_int n).

End PyStr.

(** ** Exceptions *)

Inductive exn_class : Type :=
| SAPAutomatorError
| SAPConnectionError
| SAPExecutionError
| ValueError
| FileNotFoundError
| AttributeError
| OtherException.

Record exn : Type := Exn { class_of : exn_class; str : string }.

Inductive outcome (A : Type) : Type :=
| Return (a : A)
| Raise (e : exn).
Arguments Return {A} a.
Arguments Raise {A} e.

(** ** The state-and-exception monad *)

Definition M (S A : Type) : Type := S -> option (outcome A * S).

Definition ret {S A} (a : A) : M S A := fun s => Some (Return a, s).

Definition raise {S A} (e : exn) : M S A := fun s => Some (Raise e, s).

Definition out_of_fuel {S A} : M S A := fun _ => None.

Definition bind {S A B} (m : M S A) (k : A -> M S B) : M S B :=
  fun s =>
    match m s with
    | None => None
    | Some (Return a, s') => k a s'
    | Some (Raise e, s') => Some (Raise e, s')
    end.

(** [try: body  except Exception as erro: handler erro] *)
Definition try_except {S A} (body : M S A) (handler : exn -> M S A) : M S A :=
  fun s =>
    match body s with
    | None => None
    | Some (Return a, s') => Some (Return a, s')
    | Some (Raise e, s') => handler e s'
    end.

(** Local variables of a method that are assigned inside a [try] block and read
    after it live in a frame [L] next to the state. *)
Definition lift {L S A} (m : M S A) : M (L * S) A :=
  fun ls =>
    match m (snd ls) with
    | None => None
    | Some (r, s') => Some (r, (fst ls, s'))
    end.

Definition get_local {L S} : M (L * S) L := fun ls => Some (Return (fst ls), ls).

Definition set_local {L S} (l : L) : M (L * S) unit :=
  fun ls => Some (Return tt, (l, snd ls)).

Definition with_local {L S A} (l0 : L) (m : M (L * S) A) : M S A :=
  fun s =>
    match m (l0, s) with
    | None => None
    | Some (r, ls) => Some (r, snd ls)
    end.

Declare Scope py_scope.
Delimit Scope py_scope with py.
Notation "x <- m ;; k" := (bind m (fun x => k))
  (at level 61, m at next level, right associativity) : py_scope.
Notation "m ;; k" := (bind m (fun _ => k))
  (at level 61, right associativity) : py_scope.
Open Scope py_scope.

(** ** The scripting boundary *)

Definition handle : Type := nat.

(** One constructor per external operation the automator performs; the index is
    the type of the value the operation returns.  [findById] with its default
    raise flag yields an element or raises; with the flag off ([FindByIdNoRaise])
    it yields [None] for a missing element.  [Sessions.Count] is one call. *)
Inductive call : Type -> Type :=
| Popen (path : string) : call unit
| GetObject (name : string) : call (option handle)
| GetScriptingEngine (gui : handle) : call handle
| OpenConnection (application : handle) (name : string) (sync : bool)
    : call (option handle)
| SessionsCount (connection : handle) : call Z
| Children (connection : handle) (index : Z) : call (option handle)
| HasAttr (obj : handle) (attr : string) : call bool
| FindById (session : handle) (id : string) : call handle
| FindByIdNoRaise (session : handle) (id : string) : call (option handle)
| SetText (element : handle) (value : string) : call unit
| Press (element : handle) : call unit
| GetMessageType (element : handle) : call string
| GetText (element : handle) : call string
| SendVKey (element : handle) (key : Z) : call unit
| Close (element : handle) : call unit
| CloseConnection (connection : handle) : call unit.

(** A stub answers every call, possibly by raising, and moves to a new world. *)
Definition Stub (W : Type) : Type := forall R, call R -> W -> outcome R * W.

Inductive event : Type :=
| Ext {R : Type} (c : call R)
| Slept (seconds : Z).

Inductive level : Type := INFO | WARNING | ERROR.

(** ** The automator object *)

Record SAPAutomator : Type := {
  sap_exe_path : string;
  system_name : string;
  client : string;
  language : string;
  user : string;
  password : string;
  session : option handle;
  _sap_gui_app : option handle;
  _connection : option handle
}.

Definition __init__ (sap_exe_path system_name client language user password : string)
  : SAPAutomator :=
  {| sap_exe_path := sap_exe_path; system_name := system_name; client := client;
     language := language; user := user; password := password;
     session := None; _sap_gui_app := None; _connection := None |}.

Definition with_session (o : SAPAutomator) (v : option handle) : SAPAutomator :=
  {| sap_exe_path := sap_exe_path o; system_name := system_name o; client := client o;
     language := language o; user := user o; password := password o;
     session := v; _sap_gui_app := _sap_gui_app o; _connection := _connection o |}.

Definition with_sap_gui_app (o : SAPAutomator) (v : option handle) : SAPAutomator :=
  {| sap_exe_path := sap_exe_path o; system_name := system_name o; client := client o;
     language := language o; user := user o; password := password o;
     session := session o; _sap_gui_app := v; _connection := _connection o |}.

Definition with_connection (o : SAPAutomator) (v : option handle) : SAPAutomator :=
  {| sap_exe_path := sap_exe_path o; system_name := system_name o; client := client o;
     language := language o; user := user o; password := password o;
     session := session o; _sap_gui_app := _sap_gui_app o; _connection := v |}.

(** The whole state: the object, the external world, the clock, the calls made so
    far (most recent first) and the log records (most recent first). *)
Record state (W : Type) : Type := {
  self : SAPAutomator;
  world : W;
  clock : Z;
  trace : list event;
  log : list (level * string)
}.
Arguments self {W} s.
Arguments world {W} s.
Arguments clock {W} s.
Arguments trace {W} s.
Arguments log {W} s.

Definition initial_state {W} (o : SAPAutomator) (w : W) : state W :=
  {| self := o; world := w; clock := 0; trace := []; log := [] |}.

(** ** The methods of [SAPAutomator] *)

Section Methods.

Context {W : Type} (ext : Stub W).

Local Abbreviation st := (state W).

(** *** Primitive statements *)

Definition get_self : M st SAPAutomator := fun s => Some (Return (self s), s).

Definition put_self (o : SAPAutomator) : M st unit :=
  fun s =>
    Some (Return tt,
          {| self := o; world := world s; clock := clock s;
             trace := trace s; log := log s |}).

Definition set_session (v : option handle) : M st unit :=
  o <- get_self ;; put_self (with_session o v).

Definition set_sap_gui_app (v : option handle) : M st unit :=
  o <- get_self ;; put_self (with_sap_gui_app o v).

Definition set_connection (v : option handle) : M st unit :=
  o <- get_self ;; put_self (with_connection o v).

(** An external call: the stub answers, the call is recorded. *)
Definition perform {R} (c : call R) : M st R :=
  fun s =>
    let (r, w') := ext R c (world s) in
    Some (r, {| self := self s; world := w'; clock := clock s;
                trace := Ext c :: trace s; log := log s |}).

(** [time.time()] *)
Definition time_time : M st Z := fun s => Some (Return (clock s), s).

(** [time.sleep(seconds)] *)
Definition time_sleep (seconds : Z) : M st unit :=
  fun s =>
    Some (Return tt,
          {| self := self s; world := world s; clock := clock s + seconds;
             trace := Slept seconds :: trace s; log := log s |}).

Definition logger (l : level) (m : string) : M st unit :=
  fun s =>
    Some (Return tt,
          {| self := self s; world := world s; clock := clock s;
             trace := trace s; log := (l, m) :: log s |}).

(** [obj.attr] where [obj] may be [None] *)
Definition getattr (obj : option handle) (attr : string) : M st handle :=
  match obj with
  | Some h => ret h
  | None =>
      raise (Exn AttributeError
                 ("'NoneType' object has no attribute '" ++ attr ++ "'"))
  end.

(** *** [_open_sap_logon] *)

(** The polling loop; [true] stands for the [return] inside the loop, [false]
    for leaving the loop because the condition failed. *)
Fixpoint poll (fuel : nat) (start_time timeout_seconds : Z) : M st bool :=
  match fuel with
  | O => out_of_fuel
  | S fuel' =>
      now <- time_time ;;
      if now - start_time <? timeout_seconds then
        got <- try_except
                 (app <- perform (GetObject "SAPGUI") ;;
                  set_sap_gui_app app ;;
                  match app with
                  | Some _ =>
                      logger INFO "SAP GUI Scripting Engine obtido com sucesso." ;;
                      ret true
                  | None => ret false
                  end)
                 (fun _ => time_sleep 1 ;; ret false) ;;
        if got : bool then ret true else poll fuel' start_time timeout_seconds
      else ret false
  end.

Definition timeout_message (timeout_seconds : Z) : string :=
  "Timeout: SAP GUI Scripting Engine não ficou disponível em "
    ++ PyStr.str_of_int timeout_seconds ++ " segundos.".

Definition _open_sap_logon (fuel : nat) (timeout_seconds : Z) : M st unit :=
  o <- get_self ;;
  logger INFO ("Tentando abrir o SAP Logon em: " ++ sap_exe_path o) ;;
  try_except
    (perform (Popen (sap_exe_path o)))
    (fun erro =>
       match class_of erro with
       | FileNotFoundError =>
           logger ERROR ("Erro: Executável SAP não encontrado em " ++ sap_exe_path o) ;;
           raise (Exn SAPConnectionError
                      ("Executável SAP não encontrado em " ++ sap_exe_path o))
       | _ =>
           logger ERROR ("Erro inesperado ao tentar abrir o SAP Logon: " ++ str erro) ;;
           raise (Exn SAPConnectionError
                      ("Erro inesperado ao tentar abrir o SAP Logon: " ++ str erro))
       end) ;;
  start_time <- time_time ;;
  got <- poll fuel start_time timeout_seconds ;;
  if got : bool then ret tt
  else
    logger ERROR (timeout_message timeout_seconds) ;;
    raise (Exn SAPConnectionError (timeout_message timeout_seconds)).

(** *** [_connect_to_system] *)

Definition open_failed_message (name : string) : string :=
  "Falha ao abrir conexão para o sistema " ++ name
    ++ ". Objeto de conexão é nulo.".

Definition no_session_message (name : string) : string :=
  "Nenhuma sessão encontrada para a conexão " ++ name
    ++ " após a abertura e espera.".

Definition connect_error_message (name : string) (erro : exn) : string :=
  "Erro ao conectar ao sistema SAP " ++ name ++ ": " ++ str erro.

Definition _connect_to_system : M st unit :=
  o <- get_self ;;
  try_except
    (gui <- getattr (_sap_gui_app o) "GetScriptingEngine" ;;
     application <- perform (GetScriptingEngine gui) ;;
     logger INFO ("Tentando conectar ao ambiente: " ++ system_name o) ;;
     c <- perform (OpenConnection application (system_name o) true) ;;
     set_connection c ;;
     match c with
     | None => raise (Exn SAPConnectionError (open_failed_message (system_name o)))
     | Some connection =>
         n <- perform (SessionsCount connection) ;;
         if n >? 0 then
           s <- perform (Children connection 0) ;;
           set_session s ;;
           logger INFO "Sessão SAP obtida com sucesso."
         else
           logger WARNING ("Nenhuma sessão encontrada imediatamente para "
                             ++ system_name o ++ ". Aguardando...") ;;
           time_sleep 3 ;;
           n' <- perform (SessionsCount connection) ;;
           if n' >? 0 then
             s <- perform (Children connection 0) ;;
             set_session s ;;
             logger INFO "Sessão SAP obtida após espera adicional."
           else
             raise (Exn SAPConnectionError (no_session_message (system_name o)))
     end)
    (fun erro =>
       logger ERROR ("Ocorreu um erro ao realizar a conexão com o SAP ("
                       ++ system_name o ++ "): " ++ str erro) ;;
       raise (Exn SAPConnectionError (connect_error_message (system_name o) erro))).

(** *** [_login] *)

Definition mandt_id : string := "wnd[0]/usr/txtRSYST-MANDT".
Definition bname_id : string := "wnd[0]/usr/txtRSYST-BNAME".
Definition bcode_id : string := "wnd[0]/usr/pwdRSYST-BCODE".
Definition langu_id : string := "wnd[0]/usr/txtRSYST-LANGU".
Definition enter_id : string := "wnd[0]/tbar[0]/btn[0]".
Definition sbar_id : string := "wnd[0]/sbar".

(** [t in ('e', 'a', 'x')] *)
Definition rejecting (t : string) : bool :=
  String.eqb t "e" || String.eqb t "a" || String.eqb t "x".

(** The test of the outer handler: ["findById" in str(erro) or
    "element" in str(erro).lower()] *)
Definition looks_like_lookup_fault (erro : exn) : bool :=
  PyStr.contains "findById" (str erro)
  || PyStr.contains "element" (PyStr.lower (str erro)).

Definition _login : M st unit :=
  o <- get_self ;;
  match session o with
  | None =>
      logger ERROR "Tentativa de login sem uma sessão SAP ativa." ;;
      raise (Exn SAPConnectionError "Sessão SAP não está inicializada para login.")
  | Some s =>
      try_except
        (has <- perform (HasAttr s "findById") ;;
         (if has : bool then ret tt
          else raise (Exn SAPConnectionError
                 "Objeto de sessão inválido ou não suporta 'findById'. Ocorreu um problema na conexão.")) ;;
         mandt_field <-
           try_except
             (perform (FindById s mandt_id))
             (fun _ =>
                logger WARNING
                  "Tela de login padrão não detectada ou campo Mandante não encontrado." ;;
                raise (Exn SAPConnectionError "Mandante não encontrado na tela")) ;;
         logger INFO ("Realizando login no mandante " ++ client o
                        ++ " com usuário " ++ user o) ;;
         perform (SetText mandt_field (client o)) ;;
         bname <- perform (FindById s bname_id) ;;
         perform (SetText bname (user o)) ;;
         bcode <- perform (FindById s bcode_id) ;;
         perform (SetText bcode (password o)) ;;
         langu <- perform (FindById s langu_id) ;;
         perform (SetText langu (language o)) ;;
         btn <- perform (FindById s enter_id) ;;
         perform (Press btn) ;;
         time_sleep 1 ;;
         status_bar <- perform (FindById s sbar_id) ;;
         message_type <- perform (GetMessageType status_bar) ;;
         if rejecting (PyStr.lower message_type) then
           error_message <- perform (GetText status_bar) ;;
           logger ERROR ("Erro de login SAP detectado na barra de status: "
                           ++ error_message) ;;
           raise (Exn SAPConnectionError ("Erro de login SAP: " ++ error_message))
         else
           logger INFO "Login SAP realizado com sucesso.")
        (fun erro =>
           logger ERROR ("Ocorreu um erro ao realizar o Login SAP: " ++ str erro) ;;
           if looks_like_lookup_fault erro then
             raise (Exn ValueError
                        ("Erro ao encontrar elemento da GUI durante o login: "
                           ++ str erro))
           else
             raise (Exn SAPConnectionError
                        ("Erro inesperado durante o login SAP: " ++ str erro)))
  end.

(** *** [initialize_connection] *)

(** The body of the [try] block. *)
Definition initialize_steps (fuel : nat) (open_new_logon : bool)
  : M st (option handle) :=
  (if open_new_logon then _open_sap_logon fuel 30 else ret tt) ;;
  _connect_to_system ;;
  _login ;;
  logger INFO "Inicialização da conexão SAP concluída com sucesso." ;;
  o <- get_self ;;
  ret (session o).

Definition initialize_connection (fuel : nat) (open_new_logon : bool)
  : M st (option handle) :=
  try_except
    (initialize_steps fuel open_new_logon)
    (fun e =>
       logger ERROR ("Falha ao inicializar a conexão SAP: " ++ str e) ;;
       set_session None ;;
       set_connection None ;;
       set_sap_gui_app None ;;
       raise e).

(** *** [get_session] *)

Definition get_session : M st (option handle) :=
  o <- get_self ;;
  match session o with
  | None =>
      logger WARNING
        "Tentativa de obter sessão, mas não está inicializada ou a conexão falhou anteriormente."
  | Some _ => ret tt
  end ;;
  ret (session o).

(** *** [close_connection] *)

Definition close_connection : M st unit :=
  try_except
    (o <- get_self ;;
     match session o with
     | Some s =>
         logger INFO "Fechando a sessão SAP." ;;
         wnd <- perform (FindById s "wnd[0]") ;;
         perform (Close wnd)
     | None => ret tt
     end ;;
     match _connection o with
     | Some c =>
         logger INFO "Fechando a conexão SAP." ;;
         perform (CloseConnection c)
     | None => ret tt
     end ;;
     set_session None ;;
     set_connection None ;;
     logger INFO "Conexão SAP fechada.")
    (fun e =>
       logger ERROR ("Erro ao tentar fechar a conexão SAP: " ++ str e) ;;
       set_session None ;;
       set_connection None).

(** *** [check_msgBox] *)

(** The [while True] loop; the local [msg_handled] is the frame. *)
Fixpoint drain (fuel : nat) (session : option handle) : M (bool * st) unit :=
  match fuel with
  | O => out_of_fuel
  | S fuel' =>
      msgBox <- lift (s <- getattr session "findById" ;;
                      perform (FindByIdNoRaise s "wnd[1]")) ;;
      match msgBox with
      | Some box =>
          lift (perform (SendVKey box 0)) ;;
          set_local true ;;
          drain fuel' session
      | None => ret tt
      end
  end.

Definition check_msgBox (fuel : nat) (session : option handle) : M st bool :=
  with_local false
    (try_except
       (drain fuel session)
       (fun e =>
          sbar_text <-
            try_except
              (lift (s <- getattr session "findById" ;;
                     sbar <- perform (FindByIdNoRaise s sbar_id) ;;
                     match sbar with
                     | Some bar => perform (GetText bar)
                     | None => ret ""
                     end))
              (fun _ => ret "") ;;
          lift (logger ERROR ("Erro na função check_msgBox (Statusbar: '"
                                ++ sbar_text ++ "'): " ++ str e))) ;;
     get_local).

(** *** Auxiliary notions for the statements below *)

(** The first step of [initialize_connection]. *)
Definition readiness_step (fuel : nat) (open_new_logon : bool) : M st unit :=
  if open_new_logon then _open_sap_logon fuel 30 else ret tt.

(** [step_fault fuel b s e s1]: started in [s], one of the three steps of
    [initialize_connection] raises [e] and leaves the state [s1], the steps
    before it having returned normally. *)
Inductive step_fault (fuel : nat) (open_new_logon : bool) (s : st) (e : exn) (s1 : st)
  : Prop :=
| fault_in_poller :
    open_new_logon = true ->
    _open_sap_logon fuel 30 s = Some (Raise e, s1) ->
    step_fault fuel open_new_logon s e s1
| fault_in_opener (s0 : st) :
    readiness_step fuel open_new_logon s = Some (Return tt, s0) ->
    _connect_to_system s0 = Some (Raise e, s1) ->
    step_fault fuel open_new_logon s e s1
| fault_in_submitter (s0 s0' : st) :
    readiness_step fuel open_new_logon s = Some (Return tt, s0) ->
    _connect_to_system s0 = Some (Return tt, s0') ->
    _login s0' = Some (Raise e, s1) ->
    step_fault fuel open_new_logon s e s1.

(** How a run of the drain loop on a given stub comes to its end. *)
Inductive ending : Type :=
| Absent
| LookupFault (e : exn)
| KeyFault (e : exn).

(** [modal_run s N fin w]: from the world [w] on, the stub reports the modal
    window of session [s] present on [N] consecutive checks, accepting the
    confirmation key each time, and then ends the run as [fin] says. *)
Fixpoint modal_run (s : handle) (N : nat) (fin : ending) (w : W) : Prop :=
  match N with
  | O =>
      match fin with
      | Absent =>
          exists w', ext _ (FindByIdNoRaise s "wnd[1]") w = (Return None, w')
      | LookupFault e =>
          exists w', ext _ (FindByIdNoRaise s "wnd[1]") w = (Raise e, w')
      | KeyFault e =>
          exists box w1 w2,
            ext _ (FindByIdNoRaise s "wnd[1]") w = (Return (Some box), w1)
            /\ ext _ (SendVKey box 0) w1 = (Raise e, w2)
      end
  | S n =>
      exists box w1 w2,
        ext _ (FindByIdNoRaise s "wnd[1]") w = (Return (Some box), w1)
        /\ ext _ (SendVKey box 0) w1 = (Return tt, w2)
        /\ modal_run s n fin w2
  end.

(** Calls of [SendVKey] the loop makes on such a run. *)
Definition keys_of_run (N : nat) (fin : ending) : nat :=
  match fin with
  | KeyFault _ => S N
  | _ => N
  end.

(** The stub raises on every attempt to obtain the engine. *)
Definition never_ready : Prop :=
  forall w, exists e w', ext _ (GetObject "SAPGUI") w = (Raise e, w').

(** The stub raises on every lookup of the element [id] of session [s]. *)
Definition lookup_always_throws (s : handle) (id : string) : Prop :=
  forall w, exists e w', ext _ (FindById s id) w = (Raise e, w').

(** The login screen of session [s] as the submitter expects it: the session
    supports [findById], the fields take their values, the submit control can
    be pressed. *)
Definition screen_operable (s : handle) : Prop :=
  (forall w, exists w', ext _ (HasAttr s "findById") w = (Return true, w'))
  /\ (forall el v w, exists w', ext _ (SetText el v) w = (Return tt, w'))
  /\ (forall el w, exists w', ext _ (Press el) w = (Return tt, w')).

(** Every element is found, and after submission the status line shows
    [message_type] and [text]. *)
Definition login_screen (s : handle) (message_type text : string) : Prop :=
  screen_operable s
  /\ (forall id w, exists el w', ext _ (FindById s id) w = (Return el, w'))
  /\ (forall el w, exists w', ext _ (GetMessageType el) w = (Return message_type, w'))
  /\ (forall el w, exists w', ext _ (GetText el) w = (Return text, w')).

(** Every element but [id] is found; the lookup of [id] raises [e]. *)
Definition login_screen_without (s : handle) (id : string) (e : exn) : Prop :=
  screen_operable s
  /\ (forall w, exists w', ext _ (FindById s id) w = (Raise e, w'))
  /\ (forall id' w, id' <> id ->
                    exists el w', ext _ (FindById s id') w = (Return el, w')).

End Methods.

(** The elements the submitter looks up after the client-id field. *)
Definition later_elements : list string :=
  [bname_id; bcode_id; langu_id; enter_id; sbar_id].

(** ** Reading a trace *)

Definition is_session_count_check (e : event) : bool :=
  match e with
  | Ext (SessionsCount _) => true
  | _ => false
  end.

(** A write is a field assignment or the activation of a control. *)
Definition is_write (e : event) : bool :=
  match e with
  | Ext (SetText _ _) | Ext (Press _) => true
  | _ => false
  end.

Definition is_confirmation_key (e : event) : bool :=
  match e with
  | Ext (SendVKey _ key) => key =? 0
  | _ => false
  end.

Definition is_engine_lookup (e : event) : bool :=
  match e with
  | Ext (GetObject _) => true
  | _ => false
  end.

Definition is_sleep (e : event) : bool :=
  match e with
  | Slept _ => true
  | _ => false
  end.

Definition count (p : event -> bool) (tr : list event) : nat :=
  length (filter p tr).

(** [handles_null o]: engine, connection and session handle are all [None]. *)
Definition handles_null (o : SAPAutomator) : Prop :=
  _sap_gui_app o = None /\ _connection o = None /\ session o = None.

(** ** Stubs used in the examples *)

(** A stub without memory. *)
Definition const_stub (f : forall R, call R -> outcome R) : Stub unit :=
  fun R c w => (f R c, w).

(** Everything works: the engine is there, one session exists, the login screen
    is the expected one, the status line reports success, no dialog is open. *)
Definition cooperative : forall R, call R -> outcome R :=
  fun R c =>
    match c in call R return outcome R with
    | Popen _ => Return tt
    | GetObject _ => Return (Some 1%nat)
    | GetScriptingEngine _ => Return 2%nat
    | OpenConnection _ _ _ => Return (Some 3%nat)
    | SessionsCount _ => Return 1
    | Children _ _ => Return (Some 4%nat)
    | HasAttr _ _ => Return true
    | FindById _ _ => Return 5%nat
    | FindByIdNoRaise _ _ => Return None
    | SetText _ _ => Return tt
    | Press _ => Return tt
    | GetMessageType _ => Return "S"
    | GetText _ => Return ""
    | SendVKey _ _ => Return tt
    | Close _ => Return tt
    | CloseConnection _ => Return tt
    end.

Definition com_error (text : string) : exn := Exn OtherException text.

Definition demo : SAPAutomator :=
  __init__ "C:\SAP\saplogon.exe" "PRD" "300" "PT" "alice" "s3cret".

(** Variants of the cooperative answers. *)

(** The connection opens but the engine hands back a null object. *)
Definition null_connection : forall R, call R -> outcome R :=
  fun R c =>
    match c in call R return outcome R with
    | OpenConnection _ _ _ => Return None
    | c' => cooperative _ c'
    end.

(** The session materialises late: the count is the number of earlier checks. *)
Definition late_session : Stub nat :=
  fun R c checks =>
    match c in call R return outcome R * nat with
    | SessionsCount _ => (Return (Z.of_nat checks), S checks)
    | c' => (cooperative _ c', checks)
    end.

(** The status line rejects the login with the given type and text. *)
Definition status_line (message_type text : string) : forall R, call R -> outcome R :=
  fun R c =>
    match c in call R return outcome R with
    | GetMessageType _ => Return message_type
    | GetText _ => Return text
    | c' => cooperative _ c'
    end.

(** The lookup of one element fails with the given exception. *)
Definition missing_element (id : string) (e : exn) : forall R, call R -> outcome R :=
  fun R c =>
    match c in call R return outcome R with
    | FindById s id' => if String.eqb id' id then Raise e else Return 5%nat
    | c' => cooperative _ c'
    end.

(** The text SAP GUI reports through COM when [findById] finds nothing. *)
Definition control_not_found : exn :=
  com_error "(-2147352567, 'Exception occurred.', (619, 'saplogon', 'The control could not be found by id.', None, 0, 0), None)".

(** The engine is never registered. *)
Definition engine_absent : forall R, call R -> outcome R :=
  fun R c =>
    match c in call R return outcome R with
    | GetObject _ => Raise (com_error "(-2147221020, 'Invalid syntax', None, None)")
    | c' => cooperative _ c'
    end.

(** The world is the number of dialogs still to come; a confirmation key
    dismisses one. *)
Definition pending_dialogs : Stub nat :=
  fun R c pending =>
    match c in call R return outcome R * nat with
    | FindByIdNoRaise _ _ =>
        (Return (match pending with O => None | S _ => Some 9%nat end), pending)
    | SendVKey _ _ => (Return tt, Nat.pred pending)
    | c' => (cooperative _ c', pending)
    end.

(** The modal window is there on every check. *)
Definition modal_always_present : forall R, call R -> outcome R :=
  fun R c =>
    match c in call R return outcome R with
    | FindByIdNoRaise _ _ => Return (Some 9%nat)
    | c' => cooperative _ c'
    end.

(** Every lookup without the raise flag fails. *)
Definition lookup_broken : forall R, call R -> outcome R :=
  fun R c =>
    match c in call R return outcome R with
    | FindByIdNoRaise _ _ => Raise (com_error "The object invoked has disconnected from its clients.")
    | c' => cooperative _ c'
    end.

(** Closing the window and closing the connection both fail. *)
Definition close_broken : forall R, call R -> outcome R :=
  fun R c =>
    match c in call R return outcome R with
    | Close _ => Raise (com_error "window is busy")
    | CloseConnection _ => Raise (com_error "connection is busy")
    | c' => cooperative _ c'
    end.

(** An automator that holds all three handles. *)
Definition connected : SAPAutomator :=
  with_session (with_connection (with_sap_gui_app demo (Some 1%nat)) (Some 3%nat))
    (Some 4%nat).

(** ** Scenarios and trace readers for the further properties *)



Section Scenarios.

Context {W : Type} (ext : Stub W).


End Scenarios.

(** The values assigned to fields, most recent first. *)
Fixpoint written_values (tr : list event) : list string :=
  match tr with
  | [] => []
  | Ext (SetText _ v) :: tr' => v :: written_values tr'
  | _ :: tr' => written_values tr'
  end.

Definition is_launch (e : event) : bool :=
  match e with
  | Ext (Popen _) => true
  | _ => false
  end.

(** Closing a window or a connection. *)
Definition is_close (e : event) : bool :=
  match e with
  | Ext (Close _) | Ext (CloseConnection _) => true
  | _ => false
  end.

Definition is_connection_close (e : event) : bool :=
  match e with
  | Ext (CloseConnection _) => true
  | _ => false
  end.

Definition is_key (e : event) : bool :=
  match e with
  | Ext (SendVKey _ _) => true
  | _ => false
  end.

(** The calls and waits each step of [initialize_connection] can make. *)
Definition is_poller_event (e : event) : bool :=
  match e with
  | Ext (Popen _) | Ext (GetObject _) => true
  | Slept d => d =? 1
  | _ => false
  end.

Definition is_opener_event (e : event) : bool :=
  match e with
  | Ext (GetScriptingEngine _) | Ext (OpenConnection _ _ _)
  | Ext (SessionsCount _) | Ext (Children _ _) => true
  | Slept d => d =? 3
  | _ => false
  end.

Definition is_submitter_event (e : event) : bool :=
  match e with
  | Ext (HasAttr _ _) | Ext (FindById _ _) | Ext (SetText _ _) | Ext (Press _)
  | Ext (GetMessageType _) | Ext (GetText _) => true
  | Slept d => d =? 1
  | _ => false
  end.

Definition is_initialize_event (open_new_logon : bool) (e : event) : bool :=
  (open_new_logon && is_poller_event e) || is_opener_event e || is_submitter_event e.

(** What [check_msgBox] can do: lookups without the raise flag, keys, and the
    read of the status text. *)
Definition is_drain_event (e : event) : bool :=
  match e with
  | Ext (FindByIdNoRaise _ _) | Ext (SendVKey _ _) | Ext (GetText _) => true
  | _ => false
  end.

(** [only_emits P tr tr']: the trace [tr'] is [tr] with further events in
    front, all of which satisfy [P]. *)
Definition only_emits (P : event -> bool) (tr tr' : list event) : Prop :=
  exists new, tr' = (new ++ tr)%list /\ forallb P new = true.

(** Further stubs. *)

(** The executable cannot be started. *)
Definition launch_fails (e : exn) : forall R, call R -> outcome R :=
  fun R c =>
    match c in call R return outcome R with
    | Popen _ => Raise e
    | c' => cooperative _ c'
    end.


(** The session object has no [findById]. *)
Definition invalid_session : forall R, call R -> outcome R :=
  fun R c =>
    match c in call R return outcome R with
    | HasAttr _ _ => Return false
    | c' => cooperative _ c'
    end.

(** The connection cannot be opened: the engine call raises. *)
Definition open_raises (e : exn) : forall R, call R -> outcome R :=
  fun R c =>
    match c in call R return outcome R with
    | OpenConnection _ _ _ => Raise e
    | c' => cooperative _ c'
    end.

(** No session ever appears under the opened connection. *)
Definition no_session : forall R, call R -> outcome R :=
  fun R c =>
    match c in call R return outcome R with
    | SessionsCount _ => Return 0
    | c' => cooperative _ c'
    end.

(** The main window refuses to close. *)
Definition window_stuck : forall R, call R -> outcome R :=
  fun R c =>
    match c in call R return outcome R with
    | Close _ => Raise (com_error "window is busy")
    | c' => cooperative _ c'
    end.

(** The world is the number of keys the dialogs still accept; the next key
    raises. *)
Definition key_breaks : Stub nat :=
  fun R c accepted =>
    match c in call R return outcome R * nat with
    | FindByIdNoRaise _ _ => (Return (Some 9%nat), accepted)
    | SendVKey _ _ =>
        match accepted with
        | O => (Raise (com_error "The control is disabled."), O)
        | S n => (Return tt, n)
        end
    | GetText _ => (Return "Aguarde", accepted)
    | c' => (cooperative _ c', accepted)
    end.

(** The lookup of the modal window raises; the status line is there. *)
Definition dialog_lookup_broken : forall R, call R -> outcome R :=
  fun R c =>
    match c in call R return outcome R with
    | FindByIdNoRaise _ id =>
        if String.eqb id "wnd[1]"
        then Raise (com_error "The object invoked has disconnected from its clients.")
        else Return (Some 7%nat)
    | GetText _ => Return "Aguarde"
    | c' => cooperative _ c'
    end.

(** An automator that holds the engine handle only. *)
Definition engine_bound : SAPAutomator := with_sap_gui_app demo (Some 1%nat).

(** * Proof automation *)

Create HintDb py discriminated.
#[export] Hint Unfold bind try_except ret raise out_of_fuel lift get_local set_local
  with_local get_self put_self set_session set_sap_gui_app set_connection perform
  time_time time_sleep logger getattr : py.

(** Run the monadic code as far as it goes without an answer of the stub. *)
Ltac exec :=
  repeat (progress (autounfold with py;
                    cbn [self world clock trace log session _sap_gui_app _connection
                         sap_exe_path system_name client language user password
                         with_session with_connection with_sap_gui_app fst snd
                         class_of str])).

Ltac exec_in H :=
  repeat (progress (autounfold with py in H;
                    cbn [self world clock trace log session _sap_gui_app _connection
                         sap_exe_path system_name client language user password
                         with_session with_connection with_sap_gui_app fst snd
                         class_of str] in H)).

Ltac branch :=
  match goal with
  | |- context [if ?b then _ else _] => destruct b eqn:?
  | |- context [match ?a with Some _ => _ | None => _ end] => is_var a; destruct a
  end; exec.

(** Case analysis on the answer of the stub to the pending call. *)
Ltac next_answer :=
  match goal with
  | |- context [?ext ?R ?c ?w] =>
      match type of ext with
      | Stub _ =>
          let r := fresh "r" in
          let w' := fresh "w" in
          let E := fresh "E" in
          destruct (ext R c w) as [r w'] eqn:E; try destruct r; exec
      end
  end.

(** Answer the pending call with an equation of the context. *)
Ltac answer :=
  match goal with
  | H : ?ext ?R ?c ?w = _ |- context [?ext ?R ?c ?w] => rewrite H
  end; exec.

(** Answer the calls of the login sequence on a screen where every element is
    found ([HF]) and the operations succeed ([HA], [HS], [HP]). *)
Ltac on_login_screen HA HS HP HF :=
  repeat (match goal with
          | |- context [?f ?R (HasAttr ?h ?a) ?w] => destruct (HA w) as (? & ->)
          | |- context [?f ?R (FindById ?h ?id) ?w] => destruct (HF id w) as (? & ? & ->)
          | |- context [?f ?R (SetText ?el ?v) ?w] => destruct (HS el v w) as (? & ->)
          | |- context [?f ?R (Press ?el) ?w] => destruct (HP el w) as (? & ->)
          end; exec).

(** The same on a screen where one element is missing ([HR]). *)
Ltac on_partial_screen HA HS HP HR HF :=
  repeat (match goal with
          | |- context [?f ?R (HasAttr ?h ?a) ?w] => destruct (HA w) as (? & ->)
          | |- context [?f ?R (FindById ?h ?id) ?w] =>
              first [ destruct (HF id w) as (? & ? & ->); [discriminate|]
                    | destruct (HR w) as (? & ->) ]
          | |- context [?f ?R (SetText ?el ?v) ?w] => destruct (HS el v w) as (? & ->)
          | |- context [?f ?R (Press ?el) ?w] => destruct (HP el w) as (? & ->)
          end; exec).

(** Build a run of a concrete stub. *)
Ltac script := cbn; repeat (first [reflexivity | eexists | split]).

(** * Python strings *)

Lemma prefix_refl (s : string) : String.prefix s s = true.
Proof.
  induction s as [|c s IH]; cbn; [reflexivity|].
  destruct (ascii_dec c c); [exact IH | congruence].
Qed.

Lemma contains_refl (s : string) : PyStr.contains s s = true.
Proof.
  destruct s; cbn; [reflexivity|].
  destruct (ascii_dec a a); [|congruence]. now rewrite prefix_refl.
Qed.

(** [t in s] implies [t in p + s] *)
Lemma contains_append_r (p s t : string) :
  PyStr.contains t s = true -> PyStr.contains t (p ++ s) = true.
Proof.
  intros H. induction p as [|c p IH]; cbn [String.append].
  - exact H.
  - cbn [PyStr.contains]. rewrite IH. apply orb_true_r.
Qed.

(** The fixed prefix of the rejection message carries neither marker, so the
    class of a rejected login depends on the status text alone. *)
Lemma rejection_classified_by_text (k : exn_class) (text : string) :
  looks_like_lookup_fault (Exn k ("Erro de login SAP: " ++ text))
  = PyStr.contains "findById" text || PyStr.contains "element" (PyStr.lower text).
Proof. reflexivity. Qed.

Section Properties.

Context {W : Type} (ext : Stub W).

(** * Readiness poller *)

(** A fault of an attempt never leaves the polling loop. *)
Lemma poll_never_raises fuel start timeout (s s' : state W) r :
  poll ext fuel start timeout s = Some (r, s') -> exists b, r = Return b.
Proof.
  revert s. induction fuel as [|fuel IH]; intros s; cbn [poll].
  - discriminate.
  - exec. destruct (clock s - start <? timeout).
    + next_answer.
      * destruct a; exec.
        -- intros H; inversion H; eauto.
        -- apply IH.
      * apply IH.
    + intros H; inversion H; eauto.
Qed.

(** More fuel never changes a result. *)
Lemma poll_fuel_mono fuel :
  forall fuel' start timeout (s : state W) r,
    (fuel <= fuel')%nat ->
    poll ext fuel start timeout s = Some r ->
    poll ext fuel' start timeout s = Some r.
Proof.
  induction fuel as [|fuel IH]; intros fuel' start timeout s r Hf; cbn [poll].
  - discriminate.
  - destruct fuel' as [|fuel']; [lia|]. cbn [poll]. exec.
    destruct (clock s - start <? timeout); exec; [|trivial].
    next_answer.
    + destruct a; exec; [trivial|]. apply IH. lia.
    + apply IH. lia.
Qed.

(** On a stub that is never ready the loop makes one attempt and one sleep per
    remaining second and leaves by the deadline. *)
Lemma poll_never_ready :
  never_ready ext ->
  forall (k fuel : nat) (s : state W) start timeout,
    Z.to_nat (timeout - (clock s - start)) = k ->
    (k < fuel)%nat ->
    exists s',
      poll ext fuel start timeout s = Some (Return false, s')
      /\ clock s' = clock s + Z.of_nat k
      /\ count is_engine_lookup (trace s') = (count is_engine_lookup (trace s) + k)%nat
      /\ count is_sleep (trace s') = (count is_sleep (trace s) + k)%nat
      /\ self s' = self s /\ log s' = log s.
Proof.
  intros NR. induction k as [|k IH]; intros fuel s start timeout Hk Hf;
    (destruct fuel as [|fuel]; [lia|]); cbn [poll]; exec.
  - assert ((clock s - start <? timeout) = false) as -> by (apply Z.ltb_ge; lia).
    exec. eexists. repeat split; try lia. all: rewrite ?Nat.add_0_r; reflexivity.
  - assert ((clock s - start <? timeout) = true) as -> by (apply Z.ltb_lt; lia).
    exec. destruct (NR (world s)) as (e & w' & G). answer.
    match goal with |- context [poll ext fuel start timeout ?s1] =>
      destruct (IH fuel s1 start timeout) as (s' & P & Hc & Hl & Hs & Ho & Hg)
    end.
    + exec. lia.
    + lia.
    + exec. rewrite P. exists s'.
      exec_in Hc. exec_in Hl. exec_in Hs. exec_in Ho. exec_in Hg.
      unfold count in *. cbn [filter is_engine_lookup is_sleep length] in *.
      repeat split; try assumption; lia.
Qed.

(** The poller fails with the connection class only. *)
Lemma open_sap_logon_raises fuel timeout (s s' : state W) e :
  _open_sap_logon ext fuel timeout s = Some (Raise e, s') ->
  class_of e = SAPConnectionError.
Proof.
  unfold _open_sap_logon. exec. next_answer.
  - destruct (poll ext fuel _ _ _) as [[r s1]|] eqn:P; [|discriminate].
    destruct (poll_never_raises _ _ _ _ _ _ P) as [b ->].
    destruct b; intros H; inversion H; reflexivity.
  - destruct (class_of e0); intros H; inversion H; reflexivity.
Qed.

Lemma open_sap_logon_fuel_mono fuel fuel' timeout (s : state W) r :
  (fuel <= fuel')%nat ->
  _open_sap_logon ext fuel timeout s = Some r ->
  _open_sap_logon ext fuel' timeout s = Some r.
Proof.
  intros Hf. unfold _open_sap_logon. exec. next_answer.
  - destruct (poll ext fuel _ _ _) as [p|] eqn:P; [|discriminate].
    now rewrite (poll_fuel_mono _ _ _ _ _ _ Hf P).
  - destruct (class_of e); exec; trivial.
Qed.

(** C9.  Readiness poller on a stub that is never ready.  For every timeout [T],
    once the client is launched and every attempt to obtain the engine raises,
    [_open_sap_logon] fails with [SAPConnectionError] and the timeout message.
    The clock has then advanced by [max 0 T] seconds: not less than [T], and
    less than one poll interval more.  It made [T] attempts, each followed by
    one sleep of a second, and none of their faults is surfaced.  Fuel above
    [T] suffices, so the loop does not run for ever. *)
Theorem readiness_poller_times_out (T : Z) (s : state W) w1 fuel :
  ext _ (Popen (sap_exe_path (self s))) (world s) = (Return tt, w1) ->
  never_ready ext ->
  (Z.to_nat T < fuel)%nat ->
  exists s',
    _open_sap_logon ext fuel T s
    = Some (Raise (Exn SAPConnectionError (timeout_message T)), s')
    /\ clock s' - clock s = Z.max 0 T
    /\ T <= clock s' - clock s < Z.max 0 T + 1
    /\ count is_engine_lookup (trace s')
       = (count is_engine_lookup (trace s) + Z.to_nat T)%nat
    /\ count is_sleep (trace s') = (count is_sleep (trace s) + Z.to_nat T)%nat
    /\ _sap_gui_app (self s') = _sap_gui_app (self s).
Proof.
  intros P NR Hf. unfold _open_sap_logon. exec. answer.
  match goal with |- context [poll ext fuel ?st ?t ?s1] =>
    destruct (poll_never_ready NR (Z.to_nat T) fuel s1 st t)
      as (s' & Q & Hc & Hl & Hs & Ho & Hg)
  end.
  - exec. f_equal. lia.
  - exact Hf.
  - rewrite Q. exec. exec_in Hc. exec_in Hl. exec_in Hs. exec_in Ho.
    eexists. split; [reflexivity|]. exec. rewrite Ho.
    repeat split; try assumption; lia.
Qed.

(** Without any assumption on the stub: once the client is launched, the only
    failure of the poller is the timeout. *)
Lemma open_sap_logon_surfaces_timeout_only (T : Z) (s s' : state W) w1 fuel e :
  ext _ (Popen (sap_exe_path (self s))) (world s) = (Return tt, w1) ->
  _open_sap_logon ext fuel T s = Some (Raise e, s') ->
  e = Exn SAPConnectionError (timeout_message T).
Proof.
  intros P. unfold _open_sap_logon. exec. answer.
  destruct (poll ext fuel _ _ _) as [[r s1]|] eqn:Q; [|discriminate].
  destruct (poll_never_raises _ _ _ _ _ _ Q) as [b ->].
  destruct b; exec; intros H; inversion H; reflexivity.
Qed.

(** * Connection opener *)

(** The opener fails with the connection class only. *)
Lemma connect_to_system_raises (s s' : state W) e :
  _connect_to_system ext s = Some (Raise e, s') ->
  class_of e = SAPConnectionError.
Proof.
  unfold _connect_to_system. exec.
  destruct (_sap_gui_app (self s)); exec.
  2:{ intros H; inversion H; reflexivity. }
  repeat (first [ next_answer | branch ]);
    intros H; inversion H; reflexivity.
Qed.

(** C2.  The algorithm of the connection opener, for an automator that holds an
    engine handle whose scripting engine answers.  The traces list the external
    calls and sleeps, most recent first.
    - Null connection: [SAPConnectionError] with the open-failed message, and
      no session-count check.
    - Positive count on the first check: success, the session handle is the
      answer of [Children(0)], one check, no wait.
    - Otherwise one wait of 3 seconds and exactly one more check; a positive
      count then gives success with the session handle bound to [Children(0)];
    - a count that is still not positive gives [SAPConnectionError] with the
      no-session message, after two checks and one wait. *)
Theorem connect_to_system_algorithm (s : state W) gui application w1 :
  _sap_gui_app (self s) = Some gui ->
  ext _ (GetScriptingEngine gui) (world s) = (Return application, w1) ->
  let name := system_name (self s) in
  let opening :=
    [Ext (OpenConnection application name true); Ext (GetScriptingEngine gui)] in
  (forall w2,
      ext _ (OpenConnection application name true) w1 = (Return None, w2) ->
      exists s',
        _connect_to_system ext s
        = Some (Raise (Exn SAPConnectionError
                         (connect_error_message name
                            (Exn SAPConnectionError (open_failed_message name)))),
                s')
        /\ trace s' = (opening ++ trace s)%list
        /\ clock s' = clock s)
  /\
  (forall connection w2 n w3,
      ext _ (OpenConnection application name true) w1 = (Return (Some connection), w2) ->
      ext _ (SessionsCount connection) w2 = (Return n, w3) ->
      (0 < n ->
       forall child w4,
         ext _ (Children connection 0) w3 = (Return child, w4) ->
         exists s',
           _connect_to_system ext s = Some (Return tt, s')
           /\ session (self s') = child
           /\ _connection (self s') = Some connection
           /\ trace s'
              = ([Ext (Children connection 0); Ext (SessionsCount connection)]
                   ++ opening ++ trace s)%list
           /\ clock s' = clock s)
      /\
      (n <= 0 ->
       forall n' w4,
         ext _ (SessionsCount connection) w3 = (Return n', w4) ->
         (0 < n' ->
          forall child w5,
            ext _ (Children connection 0) w4 = (Return child, w5) ->
            exists s',
              _connect_to_system ext s = Some (Return tt, s')
              /\ session (self s') = child
              /\ _connection (self s') = Some connection
              /\ trace s'
                 = ([Ext (Children connection 0); Ext (SessionsCount connection);
                     Slept 3; Ext (SessionsCount connection)]
                      ++ opening ++ trace s)%list
              /\ clock s' = clock s + 3)
         /\
         (n' <= 0 ->
          exists s',
            _connect_to_system ext s
            = Some (Raise (Exn SAPConnectionError
                             (connect_error_message name
                                (Exn SAPConnectionError (no_session_message name)))),
                    s')
            /\ session (self s') = session (self s)
            /\ trace s'
               = ([Ext (SessionsCount connection); Slept 3;
                   Ext (SessionsCount connection)]
                    ++ opening ++ trace s)%list
            /\ clock s' = clock s + 3))).
Proof.
  intros G A name opening. subst name opening.
  split;
    [ intros w2 O
    | intros connection w2 n w3 O C1; split;
      [ intros Hn child w4 K
      | intros Hn n' w4 C2; split; [intros Hn' child w5 K | intros Hn'] ] ].
  - unfold _connect_to_system. exec. rewrite G. exec. repeat answer.
    eexists. repeat split.
  - unfold _connect_to_system. exec. rewrite G. exec. repeat answer.
    apply Z.gtb_lt in Hn. rewrite Hn. exec. repeat answer.
    eexists. repeat split.
  - unfold _connect_to_system. exec. rewrite G. exec. repeat answer.
    assert ((n >? 0) = false) as -> by (rewrite Z.gtb_ltb; apply Z.ltb_ge; lia).
    exec. repeat answer.
    apply Z.gtb_lt in Hn'. rewrite Hn'. exec. repeat answer.
    eexists. repeat split.
  - unfold _connect_to_system. exec. rewrite G. exec. repeat answer.
    assert ((n >? 0) = false) as -> by (rewrite Z.gtb_ltb; apply Z.ltb_ge; lia).
    exec. repeat answer.
    assert ((n' >? 0) = false) as -> by (rewrite Z.gtb_ltb; apply Z.ltb_ge; lia).
    exec.
    eexists. repeat split.
Qed.

(** * Credential submitter *)

(** The submitter fails with the connection class or with [ValueError]. *)
Lemma login_raises (s s' : state W) e :
  _login ext s = Some (Raise e, s') ->
  class_of e = SAPConnectionError \/ class_of e = ValueError.
Proof.
  unfold _login. exec.
  destruct (session (self s)); exec.
  2:{ intros H; inversion H; auto. }
  repeat (first [ next_answer | branch ]);
    intros H; inversion H; auto.
Qed.

(** C6.  Client-id field not found.  On a session that supports [findById] and
    whose client-id lookup always throws, [_login] fails with
    [SAPConnectionError] carrying the client-field-not-found message; the only
    external calls are the [hasattr] test and the one lookup, so no field is set
    and the submit control is not pressed. *)
Theorem login_client_field_missing (s : state W) sess :
  session (self s) = Some sess ->
  (exists w1, ext _ (HasAttr sess "findById") (world s) = (Return true, w1)) ->
  lookup_always_throws ext sess mandt_id ->
  exists s',
    _login ext s
    = Some (Raise (Exn SAPConnectionError
                     "Erro inesperado durante o login SAP: Mandante não encontrado na tela"),
            s')
    /\ trace s'
       = ([Ext (FindById sess mandt_id); Ext (HasAttr sess "findById")] ++ trace s)%list
    /\ count is_write (trace s') = count is_write (trace s).
Proof.
  intros S [w1 A] T. destruct (T w1) as (e & w2 & L).
  unfold _login. exec. rewrite S. exec. repeat answer.
  eexists. repeat split.
Qed.

(** Whatever else the stub does, nothing is written when the client-id lookup
    cannot succeed. *)
Lemma login_writes_nothing_without_client_field (s s' : state W) sess r :
  session (self s) = Some sess ->
  lookup_always_throws ext sess mandt_id ->
  _login ext s = Some (r, s') ->
  count is_write (trace s') = count is_write (trace s).
Proof.
  intros S T. unfold _login. exec. rewrite S. exec.
  next_answer.
  - destruct a; exec.
    + destruct (T w) as (e & w2 & L). answer.
      intros H; inversion H; subst; reflexivity.
    + intros H; inversion H; subst; reflexivity.
  - branch; intros H; inversion H; subst; reflexivity.
Qed.

(** What the submitter does on the expected login screen: it succeeds unless the
    lowered message type is one of e, a, x; a rejection is raised with the
    status text at the end of its message, and its class is decided by that
    text. *)
Lemma login_status_outcome (s : state W) sess message_type text :
  session (self s) = Some sess ->
  login_screen ext sess message_type text ->
  exists s',
    _login ext s
    = Some (if rejecting (PyStr.lower message_type) then
              Raise (if PyStr.contains "findById" text
                        || PyStr.contains "element" (PyStr.lower text)
                     then Exn ValueError
                            ("Erro ao encontrar elemento da GUI durante o login: "
                               ++ "Erro de login SAP: " ++ text)
                     else Exn SAPConnectionError
                            ("Erro inesperado durante o login SAP: "
                               ++ "Erro de login SAP: " ++ text))
            else Return tt,
            s').
Proof.
  intros S ((HA & HS & HP) & HF & HT & HX).
  unfold _login. exec. rewrite S. exec.
  on_login_screen HA HS HP HF.
  match goal with |- context [ext _ (GetMessageType ?el) ?w] =>
    destruct (HT el w) as (? & ->) end; exec.
  destruct (rejecting (PyStr.lower message_type)); exec.
  - match goal with |- context [ext _ (GetText ?el) ?w] =>
      destruct (HX el w) as (? & ->) end; exec.
    rewrite rejection_classified_by_text.
    destruct (PyStr.contains "findById" text || PyStr.contains "element" (PyStr.lower text));
      exec; eexists; reflexivity.
  - eexists; reflexivity.
Qed.

(** A rejecting status line makes the submitter fail, and the failure message
    contains the status text verbatim. *)
Lemma login_rejected_carries_status_text (s : state W) sess message_type text :
  session (self s) = Some sess ->
  login_screen ext sess message_type text ->
  rejecting (PyStr.lower message_type) = true ->
  exists e s',
    _login ext s = Some (Raise e, s')
    /\ PyStr.contains text (str e) = true
    /\ class_of e
       = if PyStr.contains "findById" text || PyStr.contains "element" (PyStr.lower text)
         then ValueError else SAPConnectionError.
Proof.
  intros S L R. destruct (login_status_outcome s sess message_type text S L) as (s' & H).
  rewrite R in H.
  eexists. exists s'. split; [exact H|].
  destruct (PyStr.contains "findById" text || PyStr.contains "element" (PyStr.lower text));
    cbn [str class_of]; split; try reflexivity;
    do 2 apply contains_append_r; apply contains_refl.
Qed.

(** A status line of any other type, or of none, lets the submitter succeed. *)
Lemma login_accepted (s : state W) sess message_type text :
  session (self s) = Some sess ->
  login_screen ext sess message_type text ->
  rejecting (PyStr.lower message_type) = false ->
  exists s', _login ext s = Some (Return tt, s').
Proof.
  intros S L R. destruct (login_status_outcome s sess message_type text S L) as (s' & H).
  rewrite R in H. eauto.
Qed.

(** What the submitter does with a fault [e] from the lookup of an element after
    the client-id field: the class of the failure is decided by the text of
    [e]. *)
Lemma login_element_missing (s : state W) sess id e :
  session (self s) = Some sess ->
  In id later_elements ->
  login_screen_without ext sess id e ->
  exists s',
    _login ext s
    = Some (Raise (if looks_like_lookup_fault e
                   then Exn ValueError
                          ("Erro ao encontrar elemento da GUI durante o login: " ++ str e)
                   else Exn SAPConnectionError
                          ("Erro inesperado durante o login SAP: " ++ str e)),
            s').
Proof.
  intros S I ((HA & HS & HP) & HR & HF).
  unfold _login. exec. rewrite S. exec.
  unfold later_elements, mandt_id, bname_id, bcode_id, langu_id, enter_id, sbar_id in *.
  destruct I as [<-|[<-|[<-|[<-|[<-|[]]]]]];
    on_partial_screen HA HS HP HR HF;
    destruct (looks_like_lookup_fault e); exec; eexists; reflexivity.
Qed.

(** * Session lifecycle orchestrator *)

Lemma readiness_step_raises fuel b (s s' : state W) e :
  readiness_step ext fuel b s = Some (Raise e, s') ->
  b = true /\ _open_sap_logon ext fuel 30 s = Some (Raise e, s').
Proof.
  unfold readiness_step. destruct b; [auto | discriminate].
Qed.

(** The [try] block raises exactly when one of its three steps does. *)
Lemma initialize_steps_fault fuel b (s s1 : state W) e :
  initialize_steps ext fuel b s = Some (Raise e, s1) <->
  step_fault ext fuel b s e s1.
Proof.
  unfold initialize_steps. fold (readiness_step ext fuel b).
  unfold bind at 1.
  split.
  - destruct (readiness_step ext fuel b s) as [[[[]|e0] s0]|] eqn:R.
    + unfold bind at 1.
      destruct (_connect_to_system ext s0) as [[[[]|e1] s0']|] eqn:C.
      * unfold bind at 1.
        destruct (_login ext s0') as [[[[]|e2] s2]|] eqn:L.
        -- exec. discriminate.
        -- intros H; inversion H; subst. eapply fault_in_submitter; eauto.
        -- discriminate.
      * intros H; inversion H; subst. eapply fault_in_opener; eauto.
      * discriminate.
    + intros H; inversion H; subst.
      apply readiness_step_raises in R as [-> R]. now apply fault_in_poller.
    + discriminate.
  - intros [Hb P | s0 R C | s0 s0' R C L].
    + subst b. unfold readiness_step. now rewrite P.
    + rewrite R. unfold bind at 1. now rewrite C.
    + rewrite R. unfold bind at 1. rewrite C. unfold bind at 1. now rewrite L.
Qed.

Lemma step_fault_class fuel b (s s1 : state W) e :
  step_fault ext fuel b s e s1 ->
  class_of e = SAPConnectionError \/ class_of e = ValueError.
Proof.
  intros [_ P | s0 _ C | s0 s0' _ _ L].
  - left. eapply open_sap_logon_raises; eauto.
  - left. eapply connect_to_system_raises; eauto.
  - eapply login_raises; eauto.
Qed.

(** What the handler of [initialize_connection] does with a fault. *)
Lemma initialize_connection_handler fuel b (s s1 : state W) e :
  initialize_steps ext fuel b s = Some (Raise e, s1) ->
  exists s',
    initialize_connection ext fuel b s = Some (Raise e, s')
    /\ handles_null (self s')
    /\ world s' = world s1 /\ trace s' = trace s1 /\ clock s' = clock s1.
Proof.
  intros H. unfold initialize_connection, try_except. rewrite H. exec.
  eexists. split; [reflexivity|]. unfold handles_null. exec. auto.
Qed.

(** C1.  Teardown on failure.  Whenever the readiness poller, the connection
    opener or the credential submitter raises [e] during
    [initialize_connection], the call raises that same [e] (same class, same
    message), the engine, connection and session handles are all [None]
    afterwards, and no further external call is made.  The class of [e] is
    [SAPConnectionError] or [ValueError]. *)
Theorem initialize_connection_teardown fuel open_new_logon (s s1 : state W) e :
  step_fault ext fuel open_new_logon s e s1 ->
  exists s',
    initialize_connection ext fuel open_new_logon s = Some (Raise e, s')
    /\ handles_null (self s')
    /\ trace s' = trace s1
    /\ (class_of e = SAPConnectionError \/ class_of e = ValueError).
Proof.
  intros F. pose proof (step_fault_class _ _ _ _ _ F) as K.
  apply initialize_steps_fault in F.
  destruct (initialize_connection_handler _ _ _ _ _ F) as (s' & I & N & _ & T & _).
  eauto.
Qed.

(** Conversely, every exceptional return of [initialize_connection] leaves the
    three handles null and comes from a fault of one of the steps. *)
Lemma initialize_connection_raise_inv fuel b (s s' : state W) e :
  initialize_connection ext fuel b s = Some (Raise e, s') ->
  handles_null (self s') /\ exists s1, step_fault ext fuel b s e s1.
Proof.
  unfold initialize_connection, try_except.
  destruct (initialize_steps ext fuel b s) as [[[a|e0] s1]|] eqn:I;
    [discriminate| |discriminate].
  exec. intros H; inversion H; subst. split.
  - unfold handles_null. exec. auto.
  - exists s1. now apply initialize_steps_fault.
Qed.

Lemma initialize_connection_fuel_mono fuel fuel' b (s : state W) r :
  (fuel <= fuel')%nat ->
  initialize_connection ext fuel b s = Some r ->
  initialize_connection ext fuel' b s = Some r.
Proof.
  intros Hf. unfold initialize_connection, initialize_steps, try_except, bind.
  destruct b; [|trivial].
  destruct (_open_sap_logon ext fuel 30 s) as [p|] eqn:P; [|discriminate].
  now rewrite (open_sap_logon_fuel_mono _ _ _ _ _ Hf P).
Qed.

(** C10.  [initialize_connection(open_new_logon=False)] on a freshly constructed
    automator: the missing engine handle makes the attribute access fail, the
    opener wraps that fault, and the call fails with [SAPConnectionError]; the
    three handles are null afterwards.  This holds for every stub, every
    configuration and any fuel. *)
Theorem fresh_automator_fails_with_connection_error
    fuel (p n c l u pw : string) (w : W) :
  exists s',
    initialize_connection ext fuel false (initial_state (__init__ p n c l u pw) w)
    = Some (Raise (Exn SAPConnectionError
                     (connect_error_message n
                        (Exn AttributeError
                           "'NoneType' object has no attribute 'GetScriptingEngine'"))),
            s')
    /\ handles_null (self s')
    /\ trace s' = [].
Proof.
  eexists. split; [reflexivity|]. unfold handles_null. exec. auto.
Qed.

(** * Dialog drain loop *)

Lemma drain_fuel_mono sess fuel :
  forall fuel' (ls : bool * state W) r,
    (fuel <= fuel')%nat ->
    drain ext fuel sess ls = Some r ->
    drain ext fuel' sess ls = Some r.
Proof.
  induction fuel as [|fuel IH]; intros fuel' [l s] r Hf; cbn [drain].
  - discriminate.
  - destruct fuel' as [|fuel']; [lia|]. cbn [drain]. exec.
    destruct sess as [h|]; exec; [|trivial].
    next_answer; [|trivial].
    destruct a as [box|]; exec; [|trivial].
    next_answer; [|trivial]. apply IH. lia.
Qed.

(** The loop on a finite run of the stub: it ends as the run does, with
    [msg_handled] set once a key was accepted. *)
Lemma drain_run (sess : handle) (N : nat) (fin : ending) :
  forall (fuel : nat) (l : bool) (s : state W),
    modal_run ext sess N fin (world s) ->
    (N < fuel)%nat ->
    exists s',
      drain ext fuel (Some sess) (l, s)
      = Some (match fin with
              | Absent => Return tt
              | LookupFault e | KeyFault e => Raise e
              end,
              (l || (0 <? N)%nat, s'))
      /\ count is_confirmation_key (trace s')
         = (count is_confirmation_key (trace s) + keys_of_run N fin)%nat.
Proof.
  induction N as [|N IH]; intros fuel l s R Hf;
    (destruct fuel as [|fuel]; [lia|]); cbn [drain modal_run] in *; exec.
  - destruct fin as [|e|e].
    + destruct R as (w' & F). answer. rewrite orb_false_r.
      eexists; split; [reflexivity|]. exec. unfold count. cbn. lia.
    + destruct R as (w' & F). answer. rewrite orb_false_r.
      eexists; split; [reflexivity|]. exec. unfold count. cbn. lia.
    + destruct R as (box & w1 & w2 & F & K). repeat answer. rewrite orb_false_r.
      eexists; split; [reflexivity|]. exec. unfold count. cbn. lia.
  - destruct R as (box & w1 & w2 & F & K & R). repeat answer.
    match goal with |- context [drain ext fuel (Some sess) (true, ?s1)] =>
      destruct (IH fuel true s1) as (s' & D & C)
    end.
    + exact R.
    + lia.
    + rewrite D. exists s'. split.
      * rewrite orb_true_r. reflexivity.
      * rewrite C. exec. unfold count, keys_of_run. cbn.
        destruct fin; lia.
Qed.

(** A loop that ends was run on a finite run of the stub. *)
Lemma drain_terminates_inv (sess : handle) :
  forall fuel (ls ls' : bool * state W) r,
    drain ext fuel (Some sess) ls = Some (r, ls') ->
    exists N fin, modal_run ext sess N fin (world (snd ls)).
Proof.
  induction fuel as [|fuel IH]; intros [l s] ls' r; cbn [drain]; exec.
  - discriminate.
  - next_answer.
    + destruct a as [box|]; exec.
      * next_answer.
        -- intros D. apply IH in D. destruct D as (N & fin & R).
           exists (S N), fin. cbn [modal_run].
           match goal with u : unit |- _ => destruct u end. eauto 10.
        -- intros _. exists O, (KeyFault e). cbn. eauto 10.
      * intros _. exists O, Absent. cbn. eauto.
    + intros _. exists O, (LookupFault e). cbn. eauto.
Qed.

(** [check_msgBox] from the three ways its loop can go. *)
Lemma check_msgBox_drained fuel sess (s s1 : state W) b :
  drain ext fuel sess (false, s) = Some (Return tt, (b, s1)) ->
  check_msgBox ext fuel sess s = Some (Return b, s1).
Proof.
  intros D. unfold check_msgBox. exec. rewrite D. reflexivity.
Qed.

Lemma check_msgBox_swallows fuel sess (s s1 : state W) b e :
  drain ext fuel sess (false, s) = Some (Raise e, (b, s1)) ->
  exists s',
    check_msgBox ext fuel sess s = Some (Return b, s')
    /\ count is_confirmation_key (trace s') = count is_confirmation_key (trace s1).
Proof.
  intros D. unfold check_msgBox. exec. rewrite D. exec.
  destruct sess as [h|]; exec.
  - next_answer.
    + destruct a as [bar|]; exec.
      * next_answer; eexists; split; reflexivity.
      * eexists; split; reflexivity.
    + eexists; split; reflexivity.
  - eexists; split; reflexivity.
Qed.

Lemma check_msgBox_out_of_fuel fuel sess (s : state W) :
  drain ext fuel sess (false, s) = None ->
  check_msgBox ext fuel sess s = None.
Proof.
  intros D. unfold check_msgBox. exec. rewrite D. reflexivity.
Qed.

Lemma check_msgBox_fuel_mono sess fuel fuel' (s : state W) r :
  (fuel <= fuel')%nat ->
  check_msgBox ext fuel sess s = Some r ->
  check_msgBox ext fuel' sess s = Some r.
Proof.
  intros Hf. unfold check_msgBox. exec.
  destruct (drain ext fuel sess (false, s)) as [p|] eqn:D; [|discriminate].
  now rewrite (drain_fuel_mono _ _ _ _ _ Hf D).
Qed.

(** No fault of the stub leaves [check_msgBox]. *)
Lemma check_msgBox_never_raises fuel sess (s s' : state W) e :
  check_msgBox ext fuel sess s <> Some (Raise e, s').
Proof.
  destruct (drain ext fuel sess (false, s)) as [[[[]|e0] [b s1]]|] eqn:D.
  - rewrite (check_msgBox_drained _ _ _ _ _ D). discriminate.
  - destruct (check_msgBox_swallows _ _ _ _ _ _ D) as (s2 & -> & _). discriminate.
  - rewrite (check_msgBox_out_of_fuel _ _ _ D). discriminate.
Qed.

(** [check_msgBox] on a finite run: the result says whether a key was accepted,
    and the keys sent are those of the run. *)
Lemma check_msgBox_run (sess : handle) (N : nat) (fin : ending) fuel (s : state W) :
  modal_run ext sess N fin (world s) ->
  (N < fuel)%nat ->
  exists s',
    check_msgBox ext fuel (Some sess) s = Some (Return (0 <? N)%nat, s')
    /\ count is_confirmation_key (trace s')
       = (count is_confirmation_key (trace s) + keys_of_run N fin)%nat.
Proof.
  intros R Hf.
  destruct (drain_run sess N fin fuel false s R Hf) as (s1 & D & C).
  cbn [orb] in D. destruct fin as [|e|e].
  - exists s1. split; [now apply check_msgBox_drained | exact C].
  - destruct (check_msgBox_swallows _ _ _ _ _ _ D) as (s' & K & C').
    exists s'. split; [exact K | congruence].
  - destruct (check_msgBox_swallows _ _ _ _ _ _ D) as (s' & K & C').
    exists s'. split; [exact K | congruence].
Qed.

(** C3 (amended).  The drain loop has no iteration cap.  Given a session handle,
    [check_msgBox] terminates exactly on the stubs that, after finitely many
    confirmed dialogs, report the modal window absent or raise a fault from the
    lookup or from the key. *)
Theorem drain_loop_terminates_iff (sess : handle) (s : state W) :
  (exists fuel r, check_msgBox ext fuel (Some sess) s = Some r)
  <-> (exists N fin, modal_run ext sess N fin (world s)).
Proof.
  split.
  - intros (fuel & r & C).
    destruct (drain ext fuel (Some sess) (false, s)) as [[o ls]|] eqn:D.
    + apply drain_terminates_inv in D. exact D.
    + rewrite (check_msgBox_out_of_fuel _ _ _ D) in C. discriminate.
  - intros (N & fin & R).
    destruct (check_msgBox_run sess N fin (S N) s R) as (s' & C & _); [lia|].
    eauto.
Qed.

(** C7 (amended).  On a stub that reports the modal window present on exactly
    [N] consecutive checks and then absent, [check_msgBox] sends exactly [N]
    confirmation keys and returns whether [0 < N]: true for every [N >= 1],
    false for [N = 0], the stub on which the window is absent from the start. *)
Theorem drain_loop_counts_dialogs (N : nat) (sess : handle) (s : state W) fuel :
  modal_run ext sess N Absent (world s) ->
  (N < fuel)%nat ->
  exists s',
    check_msgBox ext fuel (Some sess) s = Some (Return (0 <? N)%nat, s')
    /\ count is_confirmation_key (trace s')
       = (count is_confirmation_key (trace s) + N)%nat.
Proof.
  intros R Hf. exact (check_msgBox_run sess N Absent fuel s R Hf).
Qed.

(** * close_connection *)

(** [close_connection] returns normally on every stub; it clears the session and
    the connection handle and keeps the engine handle. *)
Lemma close_connection_total (s : state W) :
  exists s',
    close_connection ext s = Some (Return tt, s')
    /\ session (self s') = None /\ _connection (self s') = None
    /\ _sap_gui_app (self s') = _sap_gui_app (self s).
Proof.
  unfold close_connection. exec.
  destruct (session (self s)) as [h|]; exec.
  - next_answer.
    + next_answer.
      * destruct (_connection (self s)) as [c|]; exec.
        -- next_answer; eexists; repeat split.
        -- eexists; repeat split.
      * eexists; repeat split.
    + eexists; repeat split.
  - destruct (_connection (self s)) as [c|]; exec.
    + next_answer; eexists; repeat split.
    + eexists; repeat split.
Qed.

(** C8.  Best-effort operations never propagate a fault, on any stub.
    - [check_msgBox] never returns exceptionally;
    - when a lookup fault ends the loop after [N] confirmed dialogs, it still
      returns its boolean, which says whether a dialog was handled;
    - [close_connection] returns normally whatever the close calls do, and the
      session and connection handles are [None] afterwards. *)
Theorem best_effort_operations_never_raise :
  (forall fuel sess (s s' : state W) e,
      check_msgBox ext fuel sess s <> Some (Raise e, s'))
  /\ (forall N e sess (s : state W) fuel,
        modal_run ext sess N (LookupFault e) (world s) ->
        (N < fuel)%nat ->
        exists s', check_msgBox ext fuel (Some sess) s = Some (Return (0 <? N)%nat, s'))
  /\ (forall s : state W,
        exists s',
          close_connection ext s = Some (Return tt, s')
          /\ session (self s') = None /\ _connection (self s') = None).
Proof.
  split; [|split].
  - intros. apply check_msgBox_never_raises.
  - intros N e sess s fuel R Hf.
    destruct (check_msgBox_run sess N (LookupFault e) fuel s R Hf) as (s' & C & _).
    eauto.
  - intros s. destruct (close_connection_total s) as (s' & C & A & B & _). eauto.
Qed.

End Properties.

(** * Runs on concrete stubs *)

(** The whole sequence on the cooperative stub: the three handles are bound,
    the session is returned, and the only wait is the second after submission. *)
Example initialize_connection_succeeds :
  exists s',
    initialize_connection (const_stub cooperative) 1 true (initial_state demo tt)
    = Some (Return (Some 4%nat), s')
    /\ self s' = connected
    /\ clock s' = 1
    /\ count is_write (trace s') = 5%nat.
Proof.
  eexists. split; [vm_compute; reflexivity|].
  split; [|split]; vm_compute; reflexivity.
Qed.

(** A warning on the status line does not stop the login. *)
Example login_with_warning :
  exists s',
    _login (const_stub (status_line "W" "Sua senha expira em 3 dias"))
      (initial_state connected tt)
    = Some (Return tt, s').
Proof. eexists. vm_compute. reflexivity. Qed.

(** An abort, in either letter case, does. *)
Example login_aborted :
  exists s',
    _login (const_stub (status_line "a" "Nome ou senha incorretos (repetir logon)"))
      (initial_state connected tt)
    = Some (Raise (Exn SAPConnectionError
                     "Erro inesperado durante o login SAP: Erro de login SAP: Nome ou senha incorretos (repetir logon)"),
            s').
Proof. eexists. vm_compute. reflexivity. Qed.

(** A lookup fault whose text names the method is reported as [ValueError]. *)
Example login_lookup_fault_with_marker :
  exists s',
    _login (const_stub (missing_element bcode_id (com_error "findById failed")))
      (initial_state connected tt)
    = Some (Raise (Exn ValueError
                     "Erro ao encontrar elemento da GUI durante o login: findById failed"),
            s').
Proof. eexists. vm_compute. reflexivity. Qed.

(** Witness of C1: the engine hands back a null connection; the opener's fault
    is the one [initialize_connection] raises. *)
Lemma initialize_connection_teardown_witness :
  exists s1 s',
    step_fault (const_stub null_connection) 1 true (initial_state demo tt)
      (Exn SAPConnectionError
         (connect_error_message "PRD"
            (Exn SAPConnectionError (open_failed_message "PRD"))))
      s1
    /\ initialize_connection (const_stub null_connection) 1 true (initial_state demo tt)
       = Some (Raise (Exn SAPConnectionError
                        (connect_error_message "PRD"
                           (Exn SAPConnectionError (open_failed_message "PRD")))),
               s')
    /\ handles_null (self s').
Proof.
  assert (F : exists s1,
             step_fault (const_stub null_connection) 1 true (initial_state demo tt)
               (Exn SAPConnectionError
                  (connect_error_message "PRD"
                     (Exn SAPConnectionError (open_failed_message "PRD"))))
               s1).
  { eexists. eapply fault_in_opener; vm_compute; reflexivity. }
  destruct F as (s1 & F). exists s1.
  destruct (initialize_connection_teardown _ _ _ _ _ _ F) as (s' & I & N & _).
  exists s'. auto.
Defined.

(** Witness of C2: the session appears at the second check. *)
Lemma connect_to_system_algorithm_witness :
  exists s',
    _connect_to_system late_session (initial_state (with_sap_gui_app demo (Some 1%nat)) 0%nat)
    = Some (Return tt, s')
    /\ session (self s') = Some 4%nat
    /\ count is_session_count_check (trace s') = 2%nat
    /\ filter is_sleep (trace s') = [Slept 3].
Proof.
  pose (s := initial_state (with_sap_gui_app demo (Some 1%nat)) 0%nat).
  destruct (connect_to_system_algorithm late_session s 1%nat 2%nat 0%nat eq_refl eq_refl)
    as [_ H].
  destruct (H 3%nat 0%nat 0 1%nat eq_refl eq_refl) as [_ H1].
  destruct (H1 ltac:(lia) 1 2%nat eq_refl) as [H2 _].
  destruct (H2 ltac:(lia) (Some 4%nat) 2%nat eq_refl) as (s' & C & S & _ & T & _).
  exists s'. rewrite T. repeat split; assumption.
Defined.

(** The loop never ends on the stub that shows the modal window on every
    check. *)
Lemma drain_persistent_dialog (fuel : nat) :
  forall (l : bool) (s : state unit),
    drain (const_stub modal_always_present) fuel (Some 4%nat) (l, s) = None.
Proof.
  induction fuel as [|fuel IH]; intros l s; cbn [drain]; [reflexivity|].
  exec. cbn [const_stub modal_always_present]. exec. apply IH.
Qed.

(** Counterexample to C3 as stated: on the stub that reports the modal window
    present on every check, no amount of fuel lets [check_msgBox] return. *)
Lemma drain_loop_spins_on_persistent_dialog :
  ~ exists fuel r,
      check_msgBox (const_stub modal_always_present) fuel (Some 4%nat)
        (initial_state connected tt) = Some r.
Proof.
  intros (fuel & r & C).
  rewrite check_msgBox_out_of_fuel in C by apply drain_persistent_dialog.
  discriminate.
Qed.

(** Witness of C3 (amended): two dialogs are pending, so the loop ends. *)
Lemma drain_loop_terminates_iff_witness :
  exists fuel r,
    check_msgBox pending_dialogs fuel (Some 4%nat) (initial_state connected 2%nat)
    = Some r.
Proof.
  apply (drain_loop_terminates_iff pending_dialogs 4%nat (initial_state connected 2%nat)).
  exists 2%nat, Absent. script.
Defined.

(** Counterexample to C7 as stated, at [N = 0]: the stub reports the modal
    window present on exactly zero checks and then absent, and [check_msgBox]
    does not return true (it returns false). *)
Lemma drain_loop_without_dialog_returns_false :
  modal_run (const_stub cooperative) 4%nat 0 Absent tt
  /\ (exists s',
         check_msgBox (const_stub cooperative) 1 (Some 4%nat) (initial_state connected tt)
         = Some (Return false, s'))
  /\ ~ exists fuel s',
        check_msgBox (const_stub cooperative) fuel (Some 4%nat)
          (initial_state connected tt) = Some (Return true, s').
Proof.
  split; [|split].
  - script.
  - eexists. vm_compute. reflexivity.
  - intros (fuel & s' & C). destruct fuel as [|fuel]; cbv in C; discriminate.
Qed.

(** Witness of C7 (amended): three dialogs, three keys, result true. *)
Lemma drain_loop_counts_dialogs_witness :
  modal_run pending_dialogs 4%nat 3 Absent 3%nat
  /\ exists s',
       check_msgBox pending_dialogs 4 (Some 4%nat) (initial_state connected 3%nat)
       = Some (Return true, s')
       /\ count is_confirmation_key (trace s') = 3%nat.
Proof.
  assert (R : modal_run pending_dialogs 4%nat 3 Absent 3%nat) by script.
  split; [exact R|].
  apply (drain_loop_counts_dialogs pending_dialogs 3 4%nat (initial_state connected 3%nat) 4 R).
  lia.
Defined.

(** C4, at a failing input.  The status line reports type E with a text that
    contains the word element: the rejection raised as [SAPConnectionError] is
    caught by the outer handler of [_login] and leaves as a [ValueError]. *)
Theorem login_rejection_misclassified :
  exists s',
    _login (const_stub (status_line "E" "Logon element RSYST-BCODE rejected"))
      (initial_state connected tt)
    = Some (Raise (Exn ValueError
                     "Erro ao encontrar elemento da GUI durante o login: Erro de login SAP: Logon element RSYST-BCODE rejected"),
            s').
Proof. eexists. vm_compute. reflexivity. Qed.

(** C5, at a failing input.  The lookup of the username field raises the fault
    SAP GUI reports for a missing control; its text carries neither marker, and
    [_login] fails with [SAPConnectionError], not [ValueError]. *)
Theorem login_lookup_fault_misclassified :
  exists s',
    _login (const_stub (missing_element bname_id control_not_found))
      (initial_state connected tt)
    = Some (Raise (Exn SAPConnectionError
                     ("Erro inesperado durante o login SAP: " ++ str control_not_found)),
            s')
    /\ trace s'
       = [Ext (FindById 4%nat bname_id); Ext (SetText 5%nat "300");
          Ext (FindById 4%nat mandt_id); Ext (HasAttr 4%nat "findById")].
Proof. eexists. split; vm_compute; reflexivity. Qed.

(** Witness of C6. *)
Lemma login_client_field_missing_witness :
  lookup_always_throws (const_stub (missing_element mandt_id control_not_found)) 4%nat mandt_id
  /\ exists s',
       _login (const_stub (missing_element mandt_id control_not_found))
         (initial_state connected tt)
       = Some (Raise (Exn SAPConnectionError
                        "Erro inesperado durante o login SAP: Mandante não encontrado na tela"),
               s')
       /\ count is_write (trace s') = 0%nat.
Proof.
  assert (T : lookup_always_throws
                (const_stub (missing_element mandt_id control_not_found)) 4%nat mandt_id).
  { intros w. eexists. eexists. vm_compute. reflexivity. }
  split; [exact T|].
  destruct (login_client_field_missing
              (const_stub (missing_element mandt_id control_not_found))
              (initial_state connected tt) 4%nat eq_refl
              (ex_intro _ tt eq_refl) T) as (s' & L & _ & C).
  exists s'. split; [exact L | exact C].
Defined.

(** Witness of C8: the lookup of the modal window raises at once; closing the
    window and closing the connection both raise. *)
Lemma best_effort_operations_never_raise_witness :
  (exists s',
      check_msgBox (const_stub lookup_broken) 1 (Some 4%nat) (initial_state connected tt)
      = Some (Return false, s'))
  /\ (exists s',
         close_connection (const_stub close_broken) (initial_state connected tt)
         = Some (Return tt, s')
         /\ session (self s') = None /\ _connection (self s') = None).
Proof.
  split.
  - destruct (best_effort_operations_never_raise (const_stub lookup_broken)) as (_ & H & _).
    apply (H 0%nat (com_error "The object invoked has disconnected from its clients.")
             4%nat (initial_state connected tt) 1%nat).
    + script.
    + lia.
  - destruct (best_effort_operations_never_raise (const_stub close_broken)) as (_ & _ & H).
    apply H.
Defined.

(** Witness of C9: a timeout of 3 seconds on an engine that is never there. *)
Lemma readiness_poller_times_out_witness :
  never_ready (const_stub engine_absent)
  /\ exists s',
       _open_sap_logon (const_stub engine_absent) 4 3 (initial_state demo tt)
       = Some (Raise (Exn SAPConnectionError (timeout_message 3)), s')
       /\ clock s' = 3.
Proof.
  assert (NR : never_ready (const_stub engine_absent)).
  { intros w. eexists. eexists. vm_compute. reflexivity. }
  split; [exact NR|].
  destruct (readiness_poller_times_out (const_stub engine_absent) 3
              (initial_state demo tt) tt 4 eq_refl NR ltac:(cbn; lia))
    as (s' & P & C & _).
  exists s'. split; [exact P|]. cbn in C. lia.
Defined.

(** * Further properties *)

(** ** Traces that only grow by permitted events *)

Lemma only_emits_refl (P : event -> bool) (tr : list event) : only_emits P tr tr.
Proof. exists []. split; reflexivity. Qed.

Lemma only_emits_cons (P : event -> bool) (e : event) (tr tr' : list event) :
  P e = true -> only_emits P tr tr' -> only_emits P tr (e :: tr').
Proof.
  intros He (new & -> & Hn). exists (e :: new). split; [reflexivity|].
  cbn. now rewrite He, Hn.
Qed.

Lemma only_emits_trans (P : event -> bool) (tr1 tr2 tr3 : list event) :
  only_emits P tr1 tr2 -> only_emits P tr2 tr3 -> only_emits P tr1 tr3.
Proof.
  intros (n1 & -> & H1) (n2 & -> & H2). exists (n2 ++ n1)%list. split.
  - now rewrite app_assoc.
  - rewrite forallb_app. now rewrite H1, H2.
Qed.

Lemma only_emits_weaken (P Q : event -> bool) (tr tr' : list event) :
  (forall e, P e = true -> Q e = true) ->
  only_emits P tr tr' -> only_emits Q tr tr'.
Proof.
  intros PQ (new & -> & Hn). exists new. split; [reflexivity|].
  rewrite forallb_forall in *. auto.
Qed.

(** Events outside the permitted ones are as many as before. *)
Lemma only_emits_count (P Q : event -> bool) (tr tr' : list event) :
  (forall e, P e = true -> Q e = false) ->
  only_emits P tr tr' -> count Q tr' = count Q tr.
Proof.
  intros PQ (new & -> & Hn). unfold count. rewrite filter_app, length_app.
  replace (filter Q new) with (@nil event); [reflexivity|].
  induction new as [|e new IH]; [reflexivity|].
  cbn in Hn. apply andb_true_iff in Hn as [He Hn].
  cbn. rewrite (PQ e He). auto.
Qed.

(** Close a leaf of a case analysis: the final trace is the initial one with
    permitted events in front. *)
Ltac emitted :=
  repeat (apply only_emits_cons; [reflexivity|]); apply only_emits_refl.

Section MoreProperties.

Context {W : Type} (ext : Stub W).

(** ** Readiness poller *)

(** X1.  Launch failure.  When starting the executable raises, [_open_sap_logon]
    fails at once with [SAPConnectionError]: the not-found message for
    [FileNotFoundError], the wrapped text of the fault otherwise.  It makes no
    attempt to obtain the engine, does not wait and leaves the object as it
    was; this needs no fuel. *)
Theorem launch_failure_is_immediate fuel T (s : state W) e w1 :
  ext _ (Popen (sap_exe_path (self s))) (world s) = (Raise e, w1) ->
  exists s',
    _open_sap_logon ext fuel T s
    = Some (Raise (Exn SAPConnectionError
                     (match class_of e with
                      | FileNotFoundError =>
                          "Executável SAP não encontrado em " ++ sap_exe_path (self s)
                      | _ => "Erro inesperado ao tentar abrir o SAP Logon: " ++ str e
                      end)),
            s')
    /\ trace s' = Ext (Popen (sap_exe_path (self s))) :: trace s
    /\ clock s' = clock s
    /\ self s' = self s.
Proof.
  intros P. unfold _open_sap_logon. exec. answer.
  destruct (class_of e); exec; eexists; repeat split.
Qed.

(** X2.  A timeout that is not positive.  The loop condition fails before the first
    attempt: [_open_sap_logon] fails with the timeout error without asking for
    the engine at all, whatever the stub would have answered. *)
Theorem nonpositive_timeout_never_polls fuel T (s : state W) w1 :
  ext _ (Popen (sap_exe_path (self s))) (world s) = (Return tt, w1) ->
  T <= 0 ->
  (0 < fuel)%nat ->
  exists s',
    _open_sap_logon ext fuel T s
    = Some (Raise (Exn SAPConnectionError (timeout_message T)), s')
    /\ trace s' = Ext (Popen (sap_exe_path (self s))) :: trace s
    /\ clock s' = clock s
    /\ self s' = self s.
Proof.
  intros P HT Hf. destruct fuel as [|fuel]; [lia|].
  unfold _open_sap_logon. exec. answer. cbn [poll]. exec.
  assert ((clock s - clock s <? T) = false) as -> by (apply Z.ltb_ge; lia).
  exec. eexists. repeat split.
Qed.



(** ** Connection opener *)

(** X4.  A fault of [OpenConnection] is wrapped: [_connect_to_system] fails with
    [SAPConnectionError] whose message ends with the text of the fault, makes
    no further call and leaves the object unchanged. *)
Theorem opener_wraps_engine_fault (s : state W) gui application w1 e0 w2 :
  _sap_gui_app (self s) = Some gui ->
  ext _ (GetScriptingEngine gui) (world s) = (Return application, w1) ->
  ext _ (OpenConnection application (system_name (self s)) true) w1 = (Raise e0, w2) ->
  exists s',
    _connect_to_system ext s
    = Some (Raise (Exn SAPConnectionError
                     (connect_error_message (system_name (self s)) e0)),
            s')
    /\ PyStr.contains (str e0) (connect_error_message (system_name (self s)) e0) = true
    /\ self s' = self s
    /\ trace s'
       = ([Ext (OpenConnection application (system_name (self s)) true);
          Ext (GetScriptingEngine gui)] ++ trace s)%list.
Proof.
  intros G A O. unfold _connect_to_system. exec. rewrite G. exec. repeat answer.
  eexists. split; [reflexivity|]. split.
  - unfold connect_error_message. do 3 apply contains_append_r. apply contains_refl.
  - split; reflexivity.
Qed.


(** X6.  When no session appears on either check, [_connect_to_system] fails but
    leaves [_connection] bound to the connection it opened, and closes
    nothing. *)
Theorem opener_keeps_connection_without_session
    (s : state W) gui application w1 connection w2 n w3 n' w4 :
  _sap_gui_app (self s) = Some gui ->
  ext _ (GetScriptingEngine gui) (world s) = (Return application, w1) ->
  ext _ (OpenConnection application (system_name (self s)) true) w1
  = (Return (Some connection), w2) ->
  ext _ (SessionsCount connection) w2 = (Return n, w3) ->
  ext _ (SessionsCount connection) w3 = (Return n', w4) ->
  n <= 0 -> n' <= 0 ->
  exists e s',
    _connect_to_system ext s = Some (Raise e, s')
    /\ _connection (self s') = Some connection
    /\ count is_close (trace s') = count is_close (trace s).
Proof.
  intros G A O C1 C2 Hn Hn'.
  unfold _connect_to_system. exec. rewrite G. exec. repeat answer.
  assert ((n >? 0) = false) as -> by (rewrite Z.gtb_ltb; apply Z.ltb_ge; lia).
  exec. repeat answer.
  assert ((n' >? 0) = false) as -> by (rewrite Z.gtb_ltb; apply Z.ltb_ge; lia).
  exec. eexists. eexists. repeat split.
Qed.

(** ** Credential submitter *)

(** X7.  [_login] without a session fails with [SAPConnectionError] before any
    external call. *)
Theorem login_without_session (s : state W) :
  session (self s) = None ->
  exists s',
    _login ext s
    = Some (Raise (Exn SAPConnectionError "Sessão SAP não está inicializada para login."),
            s')
    /\ trace s' = trace s /\ world s' = world s /\ self s' = self s.
Proof.
  intros S. unfold _login. exec. rewrite S. exec. eexists. repeat split.
Qed.

(** X8.  A session object without [findById]: the failure raised for it mentions
    findById, so the outer handler of [_login] turns it into a [ValueError];
    the only external call is the [hasattr] test. *)
Theorem login_on_invalid_session (s : state W) sess w1 :
  session (self s) = Some sess ->
  ext _ (HasAttr sess "findById") (world s) = (Return false, w1) ->
  exists s',
    _login ext s
    = Some (Raise (Exn ValueError
                     "Erro ao encontrar elemento da GUI durante o login: Objeto de sessão inválido ou não suporta 'findById'. Ocorreu um problema na conexão."),
            s')
    /\ trace s' = Ext (HasAttr sess "findById") :: trace s.
Proof.
  intros S A. unfold _login. exec. rewrite S. exec. repeat answer.
  eexists. split; reflexivity.
Qed.

(** What [_login] can do to the state, on any stub. *)
Lemma login_effects (s s' : state W) r :
  _login ext s = Some (r, s') ->
  self s' = self s
  /\ clock s <= clock s' <= clock s + 1
  /\ only_emits is_submitter_event (trace s) (trace s').
Proof.
  unfold _login. exec.
  destruct (session (self s)); exec.
  2:{ intros H; inversion H; subst. exec. repeat split; try lia. emitted. }
  repeat (first [ next_answer | branch ]);
    intros H; inversion H; subst; exec; (repeat split; try lia); emitted.
Qed.

(** X9.  Whatever the stub does, [_login] leaves the automator object unchanged,
    waits at most the one second after submission, and makes only the calls
    of the login sequence. *)
Theorem login_keeps_the_automator (s s' : state W) r :
  _login ext s = Some (r, s') ->
  self s' = self s
  /\ clock s <= clock s' <= clock s + 1
  /\ only_emits is_submitter_event (trace s) (trace s').
Proof.
  exact (login_effects s s' r).
Qed.

(** X10.  The login on the expected screen with a status line that does not reject:
    the fields receive client, user, password and language in this order, five
    writes are made in all (the four fields and the submit control), one
    second passes, and the two log records are built from the client and the
    user only. *)
Theorem login_sequence_on_expected_screen (s : state W) sess message_type text :
  session (self s) = Some sess ->
  login_screen ext sess message_type text ->
  rejecting (PyStr.lower message_type) = false ->
  exists s',
    _login ext s = Some (Return tt, s')
    /\ written_values (trace s')
       = ([language (self s); password (self s); user (self s); client (self s)]
            ++ written_values (trace s))%list
    /\ count is_write (trace s') = (count is_write (trace s) + 5)%nat
    /\ log s'
       = (INFO, "Login SAP realizado com sucesso.")
           :: (INFO, "Realizando login no mandante " ++ client (self s)
                       ++ " com usuário " ++ user (self s))
           :: log s
    /\ clock s' = clock s + 1.
Proof.
  intros S ((HA & HS & HP) & HF & HT & HX) R.
  unfold _login. exec. rewrite S. exec.
  on_login_screen HA HS HP HF.
  match goal with |- context [ext _ (GetMessageType ?el) ?w] =>
    destruct (HT el w) as (? & ->) end; exec.
  rewrite R. exec.
  eexists. split; [reflexivity|]. exec. unfold count. cbn.
  repeat split. lia.
Qed.

(** ** Session lifecycle orchestrator *)

Lemma poll_effects fuel start timeout :
  forall (s s' : state W) r,
    poll ext fuel start timeout s = Some (r, s') ->
    only_emits is_poller_event (trace s) (trace s')
    /\ session (self s') = session (self s)
    /\ _connection (self s') = _connection (self s)
    /\ (r = Return true -> exists g, _sap_gui_app (self s') = Some g).
Proof.
  induction fuel as [|fuel IH]; intros s s' r; cbn [poll]; [discriminate|].
  exec. destruct (clock s - start <? timeout); exec.
  - next_answer.
    + destruct a as [g|]; exec.
      * intros H; inversion H; subst; exec. repeat split; eauto. emitted.
      * intros H. apply IH in H. exec_in H. destruct H as (Em & A & B & C).
        repeat split; auto.
        eapply only_emits_trans; [|exact Em]. emitted.
    + intros H. apply IH in H. exec_in H. destruct H as (Em & A & B & C).
      repeat split; auto.
      eapply only_emits_trans; [|exact Em]. emitted.
  - intros H; inversion H; subst. repeat split; try discriminate. emitted.
Qed.

Lemma open_sap_logon_effects fuel T (s s' : state W) r :
  _open_sap_logon ext fuel T s = Some (r, s') ->
  only_emits is_poller_event (trace s) (trace s')
  /\ session (self s') = session (self s)
  /\ _connection (self s') = _connection (self s)
  /\ (r = Return tt -> exists g, _sap_gui_app (self s') = Some g).
Proof.
  unfold _open_sap_logon. exec. next_answer.
  - destruct (poll ext fuel _ _ _) as [[r0 s1]|] eqn:P; [|discriminate].
    pose proof (poll_effects _ _ _ _ _ _ P) as (Em & A & B & C).
    exec_in Em. exec_in A. exec_in B.
    destruct (poll_never_raises _ _ _ _ _ _ _ P) as [b ->].
    destruct b; exec; intros H; inversion H; subst; exec.
    + repeat split; auto. eapply only_emits_trans; [|exact Em]. emitted.
    + repeat split; auto; try discriminate.
      eapply only_emits_trans; [|exact Em]. emitted.
  - destruct (class_of e); exec; intros H; inversion H; subst; exec;
      (repeat split; try discriminate); emitted.
Qed.

Lemma connect_to_system_effects (s s' : state W) r :
  _connect_to_system ext s = Some (r, s') ->
  only_emits is_opener_event (trace s) (trace s')
  /\ _sap_gui_app (self s') = _sap_gui_app (self s)
  /\ (r = Return tt ->
      exists g c, _sap_gui_app (self s') = Some g /\ _connection (self s') = Some c).
Proof.
  unfold _connect_to_system. exec.
  destruct (_sap_gui_app (self s)) eqn:G; exec.
  2:{ intros H; inversion H; subst; exec. rewrite ?G.
      repeat split; try discriminate. emitted. }
  repeat (first [ next_answer | branch ]);
    intros H; inversion H; subst; exec; rewrite ?G;
    (repeat split; try discriminate; eauto); emitted.
Qed.

Lemma login_returns_with_session (s s' : state W) :
  _login ext s = Some (Return tt, s') -> exists h, session (self s) = Some h.
Proof.
  unfold _login. exec. destruct (session (self s)); exec; [eauto | discriminate].
Qed.

Lemma initialize_steps_effects fuel b (s s' : state W) r :
  initialize_steps ext fuel b s = Some (r, s') ->
  only_emits (is_initialize_event b) (trace s) (trace s')
  /\ (forall v, r = Return v ->
                exists h c g,
                  v = Some h /\ session (self s') = Some h
                  /\ _connection (self s') = Some c /\ _sap_gui_app (self s') = Some g).
Proof.
  unfold initialize_steps. fold (readiness_step ext fuel b). unfold bind at 1.
  destruct (readiness_step ext fuel b s) as [[[[]|e0] s0]|] eqn:R; [| |discriminate].
  - assert (E0 : only_emits (is_initialize_event b) (trace s) (trace s0)).
    { unfold readiness_step in R. destruct b.
      - apply open_sap_logon_effects in R as (Em & _).
        eapply only_emits_weaken; [|exact Em].
        intros e He. unfold is_initialize_event. now rewrite He.
      - inversion R; subst. apply only_emits_refl. }
    unfold bind at 1.
    destruct (_connect_to_system ext s0) as [[[[]|e1] s1]|] eqn:C; [| |discriminate].
    + pose proof (connect_to_system_effects _ _ _ C) as (E1 & G1 & K1).
      destruct (K1 eq_refl) as (g & c & Hg & Hc).
      assert (E1' : only_emits (is_initialize_event b) (trace s) (trace s1)).
      { eapply only_emits_trans; [exact E0|].
        eapply only_emits_weaken; [|exact E1].
        intros e He. unfold is_initialize_event. rewrite He.
        now rewrite orb_true_r. }
      unfold bind at 1.
      destruct (_login ext s1) as [[[[]|e2] s2]|] eqn:L; [| |discriminate].
      * pose proof (login_effects _ _ _ L) as (S2 & _ & E2).
        destruct (login_returns_with_session _ _ L) as (h & Hh).
        exec. intros H; inversion H; subst; exec. split.
        -- eapply only_emits_trans; [exact E1'|].
           eapply only_emits_weaken; [|exact E2].
           intros e He. unfold is_initialize_event. rewrite He.
           now rewrite orb_true_r.
        -- intros v Hv. inversion Hv; subst. rewrite S2.
           exists h, c, g. auto.
      * pose proof (login_effects _ _ _ L) as (S2 & _ & E2).
        intros H; inversion H; subst. split; [|discriminate].
        eapply only_emits_trans; [exact E1'|].
        eapply only_emits_weaken; [|exact E2].
        intros e He. unfold is_initialize_event. rewrite He.
        now rewrite orb_true_r.
    + pose proof (connect_to_system_effects _ _ _ C) as (E1 & _).
      intros H; inversion H; subst. split; [|discriminate].
      eapply only_emits_trans; [exact E0|].
      eapply only_emits_weaken; [|exact E1].
      intros e He. unfold is_initialize_event. rewrite He.
      now rewrite orb_true_r.
  - intros H; inversion H; subst. split; [|discriminate].
    unfold readiness_step in R. destruct b; [|discriminate].
    apply open_sap_logon_effects in R as (Em & _).
    eapply only_emits_weaken; [|exact Em].
    intros e He. unfold is_initialize_event. now rewrite He.
Qed.

Lemma initialize_connection_effects fuel b (s s' : state W) r :
  initialize_connection ext fuel b s = Some (r, s') ->
  only_emits (is_initialize_event b) (trace s) (trace s')
  /\ (forall v, r = Return v ->
                exists h c g,
                  v = Some h /\ session (self s') = Some h
                  /\ _connection (self s') = Some c /\ _sap_gui_app (self s') = Some g).
Proof.
  unfold initialize_connection, try_except.
  destruct (initialize_steps ext fuel b s) as [[[v|e] s1]|] eqn:I; [| |discriminate].
  - intros H; inversion H; subst. eapply initialize_steps_effects; eauto.
  - apply initialize_steps_effects in I as (Em & _).
    exec. intros H; inversion H; subst; exec. split; [exact Em | discriminate].
Qed.

Lemma initialize_event_is_no_close b (e : event) :
  is_initialize_event b e = true -> is_close e = false /\ is_key e = false.
Proof.
  destruct b; destruct e as [R c|d]; [destruct c| |destruct c|]; cbn;
    intros H; try discriminate; split; reflexivity.
Qed.

Lemma initialize_event_is_no_launch (e : event) :
  is_initialize_event false e = true ->
  is_launch e = false /\ is_engine_lookup e = false.
Proof.
  destruct e as [R c|d]; [destruct c|]; cbn;
    intros H; try discriminate; split; reflexivity.
Qed.

(** X11.  A normal return of [initialize_connection] never yields [None]: the value
    returned is the stored session handle, and the connection and engine
    handles are bound as well. *)
Theorem initialize_connection_returns_bound_session
    fuel open_new_logon (s s' : state W) v :
  initialize_connection ext fuel open_new_logon s = Some (Return v, s') ->
  exists h c g,
    v = Some h /\ session (self s') = Some h
    /\ _connection (self s') = Some c /\ _sap_gui_app (self s') = Some g.
Proof.
  intros I. apply initialize_connection_effects in I as (_ & K). now apply K.
Qed.

(** X12.  [initialize_connection] never closes a window or a connection and never
    sends a key, whether it succeeds or fails. *)
Theorem initialize_connection_never_closes fuel open_new_logon (s s' : state W) r :
  initialize_connection ext fuel open_new_logon s = Some (r, s') ->
  count is_close (trace s') = count is_close (trace s)
  /\ count is_key (trace s') = count is_key (trace s).
Proof.
  intros I. apply initialize_connection_effects in I as (Em & _).
  split; eapply only_emits_count; try exact Em;
    intros e He; apply initialize_event_is_no_close in He; tauto.
Qed.

(** X13.  With [open_new_logon=False], [initialize_connection] neither starts the
    executable nor asks for the engine. *)
Theorem initialize_connection_without_launch fuel (s s' : state W) r :
  initialize_connection ext fuel false s = Some (r, s') ->
  count is_launch (trace s') = count is_launch (trace s)
  /\ count is_engine_lookup (trace s') = count is_engine_lookup (trace s).
Proof.
  intros I. apply initialize_connection_effects in I as (Em & _).
  split; eapply only_emits_count; try exact Em;
    intros e He; apply initialize_event_is_no_launch in He; tauto.
Qed.

(** X14.  [initialize_connection] on an engine that is never ready: after the
    launch it fails with the timeout error of the default 30 seconds, exactly
    30 seconds later and after 30 attempts, without reaching the connection
    opener, and the three handles are null. *)
Theorem initialize_connection_times_out (s : state W) w1 fuel :
  ext _ (Popen (sap_exe_path (self s))) (world s) = (Return tt, w1) ->
  never_ready ext ->
  (30 < fuel)%nat ->
  exists s',
    initialize_connection ext fuel true s
    = Some (Raise (Exn SAPConnectionError (timeout_message 30)), s')
    /\ handles_null (self s')
    /\ clock s' - clock s = 30
    /\ count is_engine_lookup (trace s') = (count is_engine_lookup (trace s) + 30)%nat
    /\ count is_opener_event (trace s') = count is_opener_event (trace s).
Proof.
  intros P NR Hf.
  unfold initialize_connection, initialize_steps, _open_sap_logon. exec. answer.
  match goal with |- context [poll ext fuel ?st ?t ?s1] =>
    destruct (poll_never_ready ext NR 30%nat fuel s1 st t)
      as (s' & Q & Hc & Hl & Hs & Ho & Hg)
  end.
  - exec. f_equal. lia.
  - exact Hf.
  - rewrite Q. exec. exec_in Hc. exec_in Hl. exec_in Hs. exec_in Ho.
    eexists. split; [reflexivity|]. unfold handles_null. exec.
    repeat split; try assumption; try lia.
    apply poll_effects in Q as (Em & _). exec_in Em.
    transitivity (count is_opener_event (Ext (Popen (sap_exe_path (self s))) :: trace s));
      [|reflexivity].
    eapply only_emits_count; [|exact Em].
    intros [R c|d]; try destruct c; cbn; intros H; try reflexivity; try discriminate.
    apply Z.eqb_eq in H. subst. reflexivity.
Qed.

(** X15.  [get_session] after [initialize_connection]: after a normal return it
    yields the same non-null handle and changes nothing; after a failure it
    yields [None] and logs one warning, without any external call. *)
Theorem get_session_after_initialize fuel open_new_logon (s s' : state W) r :
  initialize_connection ext fuel open_new_logon s = Some (r, s') ->
  match r with
  | Return v => get_session s' = Some (Return v, s') /\ v <> None
  | Raise _ =>
      exists s'',
        get_session s' = Some (Return None, s'')
        /\ log s''
           = (WARNING,
              "Tentativa de obter sessão, mas não está inicializada ou a conexão falhou anteriormente.")
               :: log s'
        /\ trace s'' = trace s'
  end.
Proof.
  intros I. destruct r as [v|e].
  - apply initialize_connection_effects in I as (_ & K).
    destruct (K v eq_refl) as (h & c & g & -> & S & _).
    unfold get_session. exec. rewrite S. exec. split; [|discriminate].
    destruct s'; reflexivity.
  - apply initialize_connection_raise_inv in I as ((_ & _ & S) & _).
    unfold get_session. exec. rewrite S. exec. eexists. repeat split.
Qed.

(** ** close_connection *)

(** X16.  [close_connection] when every call succeeds: it looks up the main window,
    closes it, then closes the connection, in this order, and clears both
    handles. *)
Theorem close_connection_order (s : state W) sess c wnd w1 w2 w3 :
  session (self s) = Some sess ->
  _connection (self s) = Some c ->
  ext _ (FindById sess "wnd[0]") (world s) = (Return wnd, w1) ->
  ext _ (Close wnd) w1 = (Return tt, w2) ->
  ext _ (CloseConnection c) w2 = (Return tt, w3) ->
  exists s',
    close_connection ext s = Some (Return tt, s')
    /\ trace s'
       = Ext (CloseConnection c) :: Ext (Close wnd) :: Ext (FindById sess "wnd[0]")
           :: trace s
    /\ session (self s') = None /\ _connection (self s') = None.
Proof.
  intros S C F K Q. unfold close_connection. exec. rewrite S. exec. repeat answer.
  rewrite C. exec. repeat answer. eexists. repeat split.
Qed.

(** X17.  When the lookup or the closing of the main window raises,
    [close_connection] does not call [CloseConnection] at all; it still
    returns normally and clears the session and connection handles. *)
Theorem close_connection_gives_up_after_window_fault (s : state W) sess :
  session (self s) = Some sess ->
  (exists e w1, ext _ (FindById sess "wnd[0]") (world s) = (Raise e, w1))
  \/ (exists wnd w1 e w2,
         ext _ (FindById sess "wnd[0]") (world s) = (Return wnd, w1)
         /\ ext _ (Close wnd) w1 = (Raise e, w2)) ->
  exists s',
    close_connection ext s = Some (Return tt, s')
    /\ count is_connection_close (trace s') = count is_connection_close (trace s)
    /\ session (self s') = None /\ _connection (self s') = None.
Proof.
  intros S [(e & w1 & F) | (wnd & w1 & e & w2 & F & K)];
    unfold close_connection; exec; rewrite S; exec; repeat answer;
    eexists; repeat split.
Qed.

(** X18.  A second [close_connection] makes no external call and changes neither the
    world nor the object. *)
Theorem close_connection_twice (s s1 : state W) r :
  close_connection ext s = Some (r, s1) ->
  exists s2,
    close_connection ext s1 = Some (Return tt, s2)
    /\ trace s2 = trace s1 /\ world s2 = world s1 /\ self s2 = self s1.
Proof.
  intros C1. destruct (close_connection_total ext s) as (s1' & C & S & K & _).
  rewrite C in C1. inversion C1; subst s1'.
  unfold close_connection. exec. rewrite S, K. exec.
  eexists. split; [reflexivity|]. exec. repeat split.
  destruct (self s1) eqn:O. cbn in *. subst. reflexivity.
Qed.

(** ** Dialog drain loop *)

(** X19.  [check_msgBox] on a null session returns [False] without any external
    call and logs the attribute error with an empty status text. *)
Theorem check_msgBox_without_session fuel (s : state W) :
  (0 < fuel)%nat ->
  exists s',
    check_msgBox ext fuel None s = Some (Return false, s')
    /\ trace s' = trace s
    /\ log s'
       = (ERROR,
          "Erro na função check_msgBox (Statusbar: ''): 'NoneType' object has no attribute 'findById'")
           :: log s.
Proof.
  intros Hf. destruct fuel as [|fuel]; [lia|].
  unfold check_msgBox. cbn [drain]. exec. eexists. repeat split.
Qed.

(** X20.  When the key raises after [N] accepted keys, [check_msgBox] has sent
    [N + 1] keys and returns whether [0 < N]. *)
Theorem check_msgBox_key_fault (N : nat) (e : exn) (sess : handle) (s : state W) fuel :
  modal_run ext sess N (KeyFault e) (world s) ->
  (N < fuel)%nat ->
  exists s',
    check_msgBox ext fuel (Some sess) s = Some (Return (0 <? N)%nat, s')
    /\ count is_confirmation_key (trace s')
       = (count is_confirmation_key (trace s) + S N)%nat.
Proof.
  intros R Hf. exact (check_msgBox_run ext sess N (KeyFault e) fuel s R Hf).
Qed.

Lemma drain_effects sess fuel :
  forall (l : bool) (s : state W) r l' s',
    drain ext fuel sess (l, s) = Some (r, (l', s')) ->
    self s' = self s /\ clock s' = clock s /\ log s' = log s
    /\ only_emits is_drain_event (trace s) (trace s').
Proof.
  induction fuel as [|fuel IH]; intros l s r l' s'; cbn [drain]; [discriminate|].
  exec. destruct sess as [h|]; exec.
  - next_answer.
    + destruct a as [box|]; exec.
      * next_answer.
        -- intros H. apply IH in H. exec_in H. destruct H as (A & B & C & Em).
           repeat split; auto. eapply only_emits_trans; [|exact Em]. emitted.
        -- intros H; inversion H; subst. exec. repeat split. emitted.
      * intros H; inversion H; subst. exec. repeat split. emitted.
    + intros H; inversion H; subst. exec. repeat split. emitted.
  - intros H; inversion H; subst. repeat split. emitted.
Qed.

(** X21.  Whatever the stub does, [check_msgBox] leaves the automator object
    unchanged, never waits, makes only lookups without the raise flag, key
    sends and reads of the status text, and writes no field. *)
Theorem check_msgBox_keeps_state fuel sess (s s' : state W) r :
  check_msgBox ext fuel sess s = Some (r, s') ->
  self s' = self s
  /\ clock s' = clock s
  /\ only_emits is_drain_event (trace s) (trace s')
  /\ count is_write (trace s') = count is_write (trace s).
Proof.
  intros C.
  assert (K : self s' = self s /\ clock s' = clock s
              /\ only_emits is_drain_event (trace s) (trace s')).
  { revert C. unfold check_msgBox. exec.
    destruct (drain ext fuel sess (false, s)) as [[[[]|e0] [b s1]]|] eqn:D;
      [| |discriminate].
    - apply drain_effects in D as (A & B & _ & Em).
      intros H; inversion H; subst. auto.
    - apply drain_effects in D as (A & B & _ & Em). exec.
      destruct sess as [h|]; exec.
      + next_answer.
        * destruct a as [bar|]; exec.
          -- next_answer; intros H; inversion H; subst; exec;
               (repeat split; auto); (eapply only_emits_trans; [exact Em|]); emitted.
          -- intros H; inversion H; subst; exec;
               (repeat split; auto); (eapply only_emits_trans; [exact Em|]); emitted.
        * intros H; inversion H; subst; exec;
            (repeat split; auto); (eapply only_emits_trans; [exact Em|]); emitted.
      + intros H; inversion H; subst; exec. auto. }
  destruct K as (A & B & Em). repeat split; auto.
  eapply only_emits_count; [|exact Em].
  intros [R c|d]; [destruct c|]; cbn; intros H; try discriminate; reflexivity.
Qed.

(** X22.  When the lookup of the modal window raises at the first check,
    [check_msgBox] returns [False] and logs one error record with the text of
    the status line, or with an empty text when the lookup of the status line
    raises as well. *)
Theorem check_msgBox_logs_status_text (s : state W) sess e w1 :
  ext _ (FindByIdNoRaise sess "wnd[1]") (world s) = (Raise e, w1) ->
  (forall bar w2 text w3,
      ext _ (FindByIdNoRaise sess sbar_id) w1 = (Return (Some bar), w2) ->
      ext _ (GetText bar) w2 = (Return text, w3) ->
      exists s',
        check_msgBox ext 1 (Some sess) s = Some (Return false, s')
        /\ log s'
           = (ERROR, "Erro na função check_msgBox (Statusbar: '" ++ text ++ "'): " ++ str e)
               :: log s)
  /\ (forall e' w2,
         ext _ (FindByIdNoRaise sess sbar_id) w1 = (Raise e', w2) ->
         exists s',
           check_msgBox ext 1 (Some sess) s = Some (Return false, s')
           /\ log s'
              = (ERROR, "Erro na função check_msgBox (Statusbar: ''): " ++ str e) :: log s).
Proof.
  intros F. split.
  - intros bar w2 text w3 B T. unfold check_msgBox. cbn [drain]. exec. repeat answer.
    eexists. split; reflexivity.
  - intros e' w2 B. unfold check_msgBox. cbn [drain]. exec. repeat answer.
    eexists. split; reflexivity.
Qed.

End MoreProperties.

(** ** Witnesses of the further properties *)

Lemma launch_failure_is_immediate_witness :
  exists s',
    _open_sap_logon (const_stub (launch_fails (Exn FileNotFoundError "[WinError 2]")))
      0 30 (initial_state demo tt)
    = Some (Raise (Exn SAPConnectionError
                     "Executável SAP não encontrado em C:\SAP\saplogon.exe"),
            s')
    /\ count is_engine_lookup (trace s') = 0%nat.
Proof.
  destruct (launch_failure_is_immediate
              (const_stub (launch_fails (Exn FileNotFoundError "[WinError 2]")))
              0 30 (initial_state demo tt) (Exn FileNotFoundError "[WinError 2]") tt eq_refl)
    as (s' & R & T & _).
  exists s'. split; [exact R|]. rewrite T. reflexivity.
Defined.

Lemma nonpositive_timeout_never_polls_witness :
  exists s',
    _open_sap_logon (const_stub cooperative) 1 0 (initial_state demo tt)
    = Some (Raise (Exn SAPConnectionError (timeout_message 0)), s')
    /\ count is_engine_lookup (trace s') = 0%nat.
Proof.
  destruct (nonpositive_timeout_never_polls (const_stub cooperative) 1 0
              (initial_state demo tt) tt eq_refl ltac:(lia) ltac:(lia))
    as (s' & R & T & _).
  exists s'. split; [exact R|]. rewrite T. reflexivity.
Defined.


Lemma opener_wraps_engine_fault_witness :
  exists s',
    _connect_to_system (const_stub (open_raises (com_error "RPC server unavailable")))
      (initial_state engine_bound tt)
    = Some (Raise (Exn SAPConnectionError
                     "Erro ao conectar ao sistema SAP PRD: RPC server unavailable"),
            s')
    /\ self s' = engine_bound.
Proof.
  destruct (opener_wraps_engine_fault
              (const_stub (open_raises (com_error "RPC server unavailable")))
              (initial_state engine_bound tt) 1%nat 2%nat tt
              (com_error "RPC server unavailable") tt eq_refl eq_refl eq_refl)
    as (s' & R & _ & O & _).
  exists s'. split; [exact R | exact O].
Defined.


Lemma opener_keeps_connection_without_session_witness :
  exists e s',
    _connect_to_system (const_stub no_session) (initial_state engine_bound tt)
    = Some (Raise e, s')
    /\ _connection (self s') = Some 3%nat.
Proof.
  destruct (opener_keeps_connection_without_session (const_stub no_session)
              (initial_state engine_bound tt) 1%nat 2%nat tt 3%nat tt 0 tt 0 tt
              eq_refl eq_refl eq_refl eq_refl eq_refl ltac:(lia) ltac:(lia))
    as (e & s' & R & C & _).
  exists e, s'. split; [exact R | exact C].
Defined.

Lemma login_without_session_witness :
  exists s',
    _login (const_stub cooperative) (initial_state demo tt)
    = Some (Raise (Exn SAPConnectionError "Sessão SAP não está inicializada para login."),
            s')
    /\ trace s' = [].
Proof.
  destruct (login_without_session (const_stub cooperative) (initial_state demo tt) eq_refl)
    as (s' & R & T & _).
  exists s'. split; [exact R | exact T].
Defined.

Lemma login_on_invalid_session_witness :
  exists e s',
    _login (const_stub invalid_session) (initial_state connected tt) = Some (Raise e, s')
    /\ class_of e = ValueError
    /\ count is_write (trace s') = 0%nat.
Proof.
  destruct (login_on_invalid_session (const_stub invalid_session)
              (initial_state connected tt) 4%nat tt eq_refl eq_refl)
    as (s' & R & T).
  eexists. exists s'. split; [exact R|]. split; [reflexivity|]. rewrite T. reflexivity.
Defined.

Lemma login_keeps_the_automator_witness :
  exists r s',
    _login (const_stub (status_line "E" "Senha incorreta")) (initial_state connected tt)
    = Some (r, s')
    /\ self s' = connected.
Proof.
  assert (H : exists r s',
             _login (const_stub (status_line "E" "Senha incorreta"))
               (initial_state connected tt) = Some (r, s'))
    by (eexists; eexists; vm_compute; reflexivity).
  destruct H as (r & s' & H). exists r, s'. split; [exact H|].
  exact (proj1 (login_keeps_the_automator _ _ _ _ H)).
Defined.

Lemma cooperative_login_screen :
  login_screen (const_stub cooperative) 4%nat "S" "".
Proof.
  repeat split; intros; repeat eexists.
Defined.

Lemma login_sequence_on_expected_screen_witness :
  exists s',
    _login (const_stub cooperative) (initial_state connected tt) = Some (Return tt, s')
    /\ written_values (trace s') = ["PT"; "s3cret"; "alice"; "300"]
    /\ log s'
       = [(INFO, "Login SAP realizado com sucesso.");
          (INFO, "Realizando login no mandante 300 com usuário alice")].
Proof.
  destruct (login_sequence_on_expected_screen (const_stub cooperative)
              (initial_state connected tt) 4%nat "S" "" eq_refl
              cooperative_login_screen eq_refl)
    as (s' & R & V & _ & L & _).
  exists s'. split; [exact R|]. split; [exact V | exact L].
Defined.

Lemma initialize_connection_returns_bound_session_witness :
  exists v s',
    initialize_connection (const_stub cooperative) 1 true (initial_state demo tt)
    = Some (Return v, s')
    /\ exists h, v = Some h /\ session (self s') = Some h.
Proof.
  assert (H : exists v s',
             initialize_connection (const_stub cooperative) 1 true (initial_state demo tt)
             = Some (Return v, s')) by (eexists; eexists; vm_compute; reflexivity).
  destruct H as (v & s' & H). exists v, s'. split; [exact H|].
  destruct (initialize_connection_returns_bound_session _ _ _ _ _ _ H)
    as (h & c & g & Hv & Hs & _).
  exists h. split; assumption.
Defined.

Lemma initialize_connection_never_closes_witness :
  exists r s',
    initialize_connection (const_stub no_session) 1 true (initial_state demo tt)
    = Some (r, s')
    /\ count is_close (trace s') = 0%nat.
Proof.
  assert (H : exists r s',
             initialize_connection (const_stub no_session) 1 true (initial_state demo tt)
             = Some (r, s')) by (eexists; eexists; vm_compute; reflexivity).
  destruct H as (r & s' & H). exists r, s'. split; [exact H|].
  exact (proj1 (initialize_connection_never_closes _ _ _ _ _ _ H)).
Defined.

Lemma initialize_connection_without_launch_witness :
  exists r s',
    initialize_connection (const_stub cooperative) 0 false (initial_state engine_bound tt)
    = Some (r, s')
    /\ count is_launch (trace s') = 0%nat
    /\ count is_engine_lookup (trace s') = 0%nat.
Proof.
  assert (H : exists r s',
             initialize_connection (const_stub cooperative) 0 false
               (initial_state engine_bound tt) = Some (r, s'))
    by (eexists; eexists; vm_compute; reflexivity).
  destruct H as (r & s' & H). exists r, s'. split; [exact H|].
  exact (initialize_connection_without_launch _ _ _ _ _ H).
Defined.

Lemma initialize_connection_times_out_witness :
  never_ready (const_stub engine_absent)
  /\ exists s',
       initialize_connection (const_stub engine_absent) 31 true (initial_state demo tt)
       = Some (Raise (Exn SAPConnectionError (timeout_message 30)), s')
       /\ handles_null (self s')
       /\ clock s' = 30.
Proof.
  assert (NR : never_ready (const_stub engine_absent)).
  { intros w. eexists. eexists. vm_compute. reflexivity. }
  split; [exact NR|].
  destruct (initialize_connection_times_out (const_stub engine_absent)
              (initial_state demo tt) tt 31 eq_refl NR ltac:(lia))
    as (s' & R & N & C & _).
  exists s'. split; [exact R|]. split; [exact N|]. cbn in C. lia.
Defined.

Lemma get_session_after_initialize_witness :
  exists e s' s'',
    initialize_connection (const_stub null_connection) 1 true (initial_state demo tt)
    = Some (Raise e, s')
    /\ get_session s' = Some (Return None, s'').
Proof.
  assert (H : exists e s',
             initialize_connection (const_stub null_connection) 1 true
               (initial_state demo tt) = Some (Raise e, s'))
    by (eexists; eexists; vm_compute; reflexivity).
  destruct H as (e & s' & H).
  destruct (get_session_after_initialize _ _ _ _ _ _ H) as (s'' & G & _).
  exists e, s', s''. split; assumption.
Defined.

Lemma close_connection_order_witness :
  exists s',
    close_connection (const_stub cooperative) (initial_state connected tt)
    = Some (Return tt, s')
    /\ trace s'
       = [Ext (CloseConnection 3%nat); Ext (Close 5%nat); Ext (FindById 4%nat "wnd[0]")].
Proof.
  destruct (close_connection_order (const_stub cooperative) (initial_state connected tt)
              4%nat 3%nat 5%nat tt tt tt eq_refl eq_refl eq_refl eq_refl eq_refl)
    as (s' & R & T & _).
  exists s'. split; [exact R | exact T].
Defined.

Lemma close_connection_gives_up_after_window_fault_witness :
  exists s',
    close_connection (const_stub window_stuck) (initial_state connected tt)
    = Some (Return tt, s')
    /\ count is_connection_close (trace s') = 0%nat
    /\ _connection (self s') = None.
Proof.
  destruct (close_connection_gives_up_after_window_fault (const_stub window_stuck)
              (initial_state connected tt) 4%nat eq_refl
              (or_intror (ex_intro _ 5%nat (ex_intro _ tt
                 (ex_intro _ (com_error "window is busy") (ex_intro _ tt
                    (conj eq_refl eq_refl)))))))
    as (s' & R & C & _ & K).
  exists s'. split; [exact R|]. split; [exact C | exact K].
Defined.

Lemma close_connection_twice_witness :
  exists s1 s2,
    close_connection (const_stub close_broken) (initial_state connected tt)
    = Some (Return tt, s1)
    /\ close_connection (const_stub close_broken) s1 = Some (Return tt, s2)
    /\ trace s2 = trace s1.
Proof.
  assert (H : exists s1,
             close_connection (const_stub close_broken) (initial_state connected tt)
             = Some (Return tt, s1)) by (eexists; vm_compute; reflexivity).
  destruct H as (s1 & H).
  destruct (close_connection_twice _ _ _ _ H) as (s2 & C & T & _).
  exists s1, s2. repeat split; assumption.
Defined.

Lemma check_msgBox_without_session_witness :
  exists s',
    check_msgBox (const_stub cooperative) 1 None (initial_state demo tt)
    = Some (Return false, s')
    /\ trace s' = [].
Proof.
  destruct (check_msgBox_without_session (const_stub cooperative) 1 (initial_state demo tt)
              ltac:(lia)) as (s' & R & T & _).
  exists s'. split; [exact R | exact T].
Defined.

Lemma check_msgBox_key_fault_witness :
  modal_run key_breaks 4%nat 2 (KeyFault (com_error "The control is disabled.")) 2%nat
  /\ exists s',
       check_msgBox key_breaks 3 (Some 4%nat) (initial_state connected 2%nat)
       = Some (Return true, s')
       /\ count is_confirmation_key (trace s') = 3%nat.
Proof.
  assert (R : modal_run key_breaks 4%nat 2
                (KeyFault (com_error "The control is disabled.")) 2%nat) by script.
  split; [exact R|].
  apply (check_msgBox_key_fault key_breaks 2 (com_error "The control is disabled.")
           4%nat (initial_state connected 2%nat) 3 R).
  lia.
Defined.

Lemma check_msgBox_keeps_state_witness :
  exists r s',
    check_msgBox pending_dialogs 5 (Some 4%nat) (initial_state connected 3%nat)
    = Some (r, s')
    /\ self s' = connected /\ clock s' = 0.
Proof.
  assert (H : exists r s',
             check_msgBox pending_dialogs 5 (Some 4%nat) (initial_state connected 3%nat)
             = Some (r, s')) by (eexists; eexists; vm_compute; reflexivity).
  destruct H as (r & s' & H). exists r, s'. split; [exact H|].
  destruct (check_msgBox_keeps_state _ _ _ _ _ _ H) as (A & B & _).
  split; assumption.
Defined.

Lemma check_msgBox_logs_status_text_witness :
  exists s',
    check_msgBox (const_stub dialog_lookup_broken) 1 (Some 4%nat) (initial_state connected tt)
    = Some (Return false, s')
    /\ log s'
       = [(ERROR,
           "Erro na função check_msgBox (Statusbar: 'Aguarde'): The object invoked has disconnected from its clients.")].
Proof.
  destruct (check_msgBox_logs_status_text (const_stub dialog_lookup_broken)
              (initial_state connected tt) 4%nat
              (com_error "The object invoked has disconnected from its clients.") tt eq_refl)
    as (H & _).
  exact (H 7%nat tt "Aguarde" tt eq_refl eq_refl).
Defined.
